(** * RECOV.AI prediction pipeline: a shallow embedding and its properties

    This development embeds the parts of the backend that carry the
    pipeline's invariants:

    - [backend/predictor.py]: [RecoveryPredictor.prepare_features] and
      [RecoveryPredictor.predict_recovery];
    - [backend/main.py]: the batch loop of [analyze_csv];
    - [backend/shap_explainer.py]: [ExplainabilityEngine.explain_prediction]
      and [_fallback_explanation].

    Modelling conventions.

    - A Python [dict] with string keys is a [gmap string _]; a one-row
      [pandas.DataFrame] is the ordered list of its (column, cell) pairs.
    - Python [float]s are exact rationals extended with the two infinities
      and NaN ([pyfloat]).  Rounding to binary64, overflow of large numbers
      to infinity and signed zeros are not modelled.
    - Exceptions are values of [exn]; code that may raise and that prints
      lives in the monad [M], which carries the lines written to stdout.
    - The trained classifier, [repr] on floats and the wall clock are
      outside the repository: they are parameters. *)

From Stdlib Require Import ZArith QArith Qround Qabs Lia Lqa List Sorted Ascii String.
From stdpp Require Import base option list gmap strings pretty.

Local Open Scope string_scope.
Local Open Scope Z_scope.

(** ** Python values *)

Module Py.

(** Python exceptions, by class. *)
Inductive exn : Type :=
| ValueError
| TypeError
| OverflowError
| KeyError
| ZeroDivisionError
| ModelError.   (* anything raised inside the classifier *)

(** Extended rationals standing for binary64 values. *)
Inductive pyfloat : Type :=
| Fin (q : Q)
| Inf (neg : bool)
| NaN.

(** The values a record field can hold. *)
Inductive pyval : Type :=
| PyNone
| PyBool (b : bool)
| PyInt (z : Z)
| PyFloat (f : pyfloat)
| PyStr (s : string).

Definition result (A : Type) : Type := (exn + A)%type.

(** *** Float arithmetic *)

Definition Qgtb (a b : Q) : bool := negb (Qle_bool a b).
Definition Qltb (a b : Q) : bool := negb (Qle_bool b a).

Definition fneg (a : pyfloat) : pyfloat :=
  match a with
  | Fin q => Fin (- q)%Q
  | Inf s => Inf (negb s)
  | NaN => NaN
  end.

Definition fadd (a b : pyfloat) : pyfloat :=
  match a, b with
  | NaN, _ | _, NaN => NaN
  | Fin x, Fin y => Fin (x + y)%Q
  | Inf s, Fin _ | Fin _, Inf s => Inf s
  | Inf s, Inf t => if Bool.eqb s t then Inf s else NaN
  end.

Definition fsub (a b : pyfloat) : pyfloat := fadd a (fneg b).

Definition fmul (a b : pyfloat) : pyfloat :=
  match a, b with
  | NaN, _ | _, NaN => NaN
  | Fin x, Fin y => Fin (x * y)%Q
  | Inf s, Fin y | Fin y, Inf s =>
      if Qeq_bool y 0 then NaN else Inf (xorb s (Qltb y 0))
  | Inf s, Inf t => Inf (xorb s t)
  end.

(** [a / b]; Python raises on a zero divisor. *)
Definition fdiv (a b : pyfloat) : result pyfloat :=
  match a, b with
  | _, Fin y =>
      if Qeq_bool y 0 then inl ZeroDivisionError
      else inr (match a with
                | Fin x => Fin (x / y)%Q
                | Inf s => Inf (xorb s (Qltb y 0))
                | NaN => NaN
                end)
  | NaN, _ | _, NaN => inr NaN
  | Fin _, Inf _ => inr (Fin 0)
  | Inf _, Inf _ => inr NaN
  end.

(** [a > b]; every comparison with NaN is false. *)
Definition fgt (a b : pyfloat) : bool :=
  match a, b with
  | NaN, _ | _, NaN => false
  | Fin x, Fin y => Qgtb x y
  | Inf s, Fin _ => negb s
  | Fin _, Inf t => t
  | Inf s, Inf t => negb s && t
  end.

Definition flt (a b : pyfloat) : bool := fgt b a.

(** [a <= b]. *)
Definition fle (a b : pyfloat) : bool :=
  match a, b with
  | NaN, _ | _, NaN => false
  | Fin x, Fin y => Qle_bool x y
  | Inf s, Fin _ => s
  | Fin _, Inf t => negb t
  | Inf s, Inf t => s || negb t
  end.

Definition fabs (a : pyfloat) : pyfloat :=
  match a with
  | Fin q => Fin (Qabs q)
  | Inf _ => Inf false
  | NaN => NaN
  end.

(** [min(a, b)]: the first argument unless the second is smaller. *)
Definition py_min (a b : pyfloat) : pyfloat := if flt b a then b else a.

(** [max(a, b)] on integers. *)
Definition py_max (a b : Z) : Z := if a <? b then b else a.

Definition float_of_int (z : Z) : pyfloat := Fin (inject_Z z).

(** Truncation toward zero, as [int()] does on a float. *)
Definition Qtrunc (q : Q) : Z := Z.quot (Qnum q) (Zpos (Qden q)).

(** [int(x)] for a float [x]. *)
Definition int_of_float (a : pyfloat) : result Z :=
  match a with
  | Fin q => inr (Qtrunc q)
  | Inf _ => inl OverflowError
  | NaN => inl ValueError
  end.

(** Round half to even on an exact rational. *)
Definition Qround_half_even (q : Q) : Z :=
  let f := Qfloor q in
  let r := (q - inject_Z f)%Q in
  if Qltb r (1 # 2) then f
  else if Qltb (1 # 2) r then f + 1
  else if Z.even f then f else f + 1.

(** [round(x, 2)]. *)
Definition round2 (a : pyfloat) : pyfloat :=
  match a with
  | Fin q => Fin (inject_Z (Qround_half_even (q * 100)) / 100)%Q
  | _ => a
  end.

(** *** Truthiness and [x or 0] *)

Definition truthy (v : pyval) : bool :=
  match v with
  | PyNone => false
  | PyBool b => b
  | PyInt z => negb (z =? 0)
  | PyFloat (Fin q) => negb (Qeq_bool q 0)
  | PyFloat _ => true
  | PyStr s => negb (String.eqb s "")
  end.

Definition py_or (v d : pyval) : pyval := if truthy v then v else d.

(** *** Parsing numbers out of strings: [int(s)] and [float(s)] *)

Definition is_space (c : ascii) : bool :=
  match c with
  | " " | "009" | "010" | "011" | "012" | "013" => true
  | _ => false
  end%char.

Definition is_digit (c : ascii) : bool :=
  let n := N_of_ascii c in (48 <=? n)%N && (n <=? 57)%N.

Definition digit_val (c : ascii) : Z := Z.of_N (N_of_ascii c) - 48.

Definition to_lower (c : ascii) : ascii :=
  let n := N_of_ascii c in
  if (65 <=? n)%N && (n <=? 90)%N then ascii_of_N (n + 32) else c.

Definition to_upper (c : ascii) : ascii :=
  let n := N_of_ascii c in
  if (97 <=? n)%N && (n <=? 122)%N then ascii_of_N (n - 32) else c.

Fixpoint lower (s : string) : string :=
  match s with
  | EmptyString => EmptyString
  | String c s' => String (to_lower c) (lower s')
  end.

(** [s.upper()] on ASCII text. *)
Fixpoint upper (s : string) : string :=
  match s with
  | EmptyString => EmptyString
  | String c s' => String (to_upper c) (upper s')
  end.

Fixpoint lstrip (s : string) : string :=
  match s with
  | String c s' => if is_space c then lstrip s' else s
  | EmptyString => EmptyString
  end.

Fixpoint rstrip (s : string) : string :=
  match s with
  | String c s' =>
      match rstrip s' with
      | EmptyString => if is_space c then EmptyString else String c EmptyString
      | r => String c r
      end
  | EmptyString => EmptyString
  end.

Definition strip (s : string) : string := rstrip (lstrip s).

(** Digits with single underscores between them, read left to right:
    the value so far, the number of digits, what is left. *)
Fixpoint digits_loop (acc : Z) (n : nat) (s : string) : Z * nat * string :=
  match s with
  | String c s' =>
      if is_digit c then digits_loop (10 * acc + digit_val c) (S n) s'
      else if Ascii.eqb c "_" then
        match s' with
        | String d s'' =>
            if is_digit d then digits_loop (10 * acc + digit_val d) (S n) s''
            else (acc, n, s)
        | EmptyString => (acc, n, s)
        end
      else (acc, n, s)
  | EmptyString => (acc, n, s)
  end.

(** A digit part must start with a digit. *)
Definition digitpart (s : string) : option (Z * nat * string) :=
  match s with
  | String c _ => if is_digit c then Some (digits_loop 0 0 s) else None
  | EmptyString => None
  end.

(** An optional sign: [true] for minus. *)
Definition sign (s : string) : bool * string :=
  match s with
  | String "-" s' => (true, s')
  | String "+" s' => (false, s')
  | _ => (false, s)
  end.

(** [int(s)] in base 10. *)
Definition parse_int (s : string) : option Z :=
  let (neg, s1) := sign (strip s) in
  match digitpart s1 with
  | Some (v, _, EmptyString) => Some (if neg then - v else v)
  | _ => None
  end.

(** The mantissa [[digitpart] "." digitpart | digitpart ["."]]: its digits
    read as one integer and the number of digits after the point. *)
Definition mantissa (s : string) : option (Z * nat * string) :=
  match digitpart s with
  | Some (ip, _, String "." s1) =>
      match digitpart s1 with
      | Some _ =>
          let '(m, fd, rest) := digits_loop ip 0 s1 in Some (m, fd, rest)
      | None => Some (ip, 0%nat, s1)
      end
  | Some (ip, _, rest) => Some (ip, 0%nat, rest)
  | None =>
      match s with
      | String "." s1 =>
          match digitpart s1 with
          | Some (m, fd, rest) => Some (m, fd, rest)
          | None => None
          end
      | _ => None
      end
  end.

(** The optional exponent [("e" | "E") [sign] digitpart]. *)
Definition exponent (s : string) : option (Z * string) :=
  match s with
  | String c s1 =>
      if Ascii.eqb (to_lower c) "e" then
        let (neg, s2) := sign s1 in
        match digitpart s2 with
        | Some (e, _, rest) => Some (if neg then - e else e, rest)
        | None => None
        end
      else Some (0, s)
  | EmptyString => Some (0, s)
  end.

Definition Qpow10 (e : Z) : Q := Qpower 10 e.

(** [float(s)]. *)
Definition parse_float (s : string) : option pyfloat :=
  let (neg, s1) := sign (strip s) in
  let l := lower s1 in
  if String.eqb l "inf" || String.eqb l "infinity" then Some (Inf neg)
  else if String.eqb l "nan" then Some NaN
  else
    match mantissa s1 with
    | Some (m, fd, s2) =>
        match exponent s2 with
        | Some (e, EmptyString) =>
            let q := (inject_Z m * Qpow10 (e - Z.of_nat fd))%Q in
            Some (Fin (Qred (if neg then - q else q)))
        | _ => None
        end
    | None => None
    end.

(** *** Conversions *)

(** [float(v)]. *)
Definition to_float (v : pyval) : result pyfloat :=
  match v with
  | PyNone => inl TypeError
  | PyBool b => inr (float_of_int (Z.b2z b))
  | PyInt z => inr (float_of_int z)
  | PyFloat f => inr f
  | PyStr s => match parse_float s with Some f => inr f | None => inl ValueError end
  end.

(** [int(v)]. *)
Definition to_int (v : pyval) : result Z :=
  match v with
  | PyNone => inl TypeError
  | PyBool b => inr (Z.b2z b)
  | PyInt z => inr z
  | PyFloat f => int_of_float f
  | PyStr s => match parse_int s with Some z => inr z | None => inl ValueError end
  end.

(** [dict.get(key, default)]. *)
Definition get (data : gmap string pyval) (key : string) (dflt : pyval) : pyval :=
  default dflt (data !! key).

Section Str.

(** [repr] of a float, which the repository takes from the interpreter. *)
Variable float_repr : pyfloat -> string.

(** [str(v)]. *)
Definition py_str (v : pyval) : string :=
  match v with
  | PyNone => "None"
  | PyBool true => "True"
  | PyBool false => "False"
  | PyInt z => pretty z
  | PyFloat f => float_repr f
  | PyStr s => s
  end.

End Str.

End Py.

Import Py.

(** ** Exceptions and stdout: the monad of the pipeline *)

(** The lines the predictor prints. *)
Inductive line : Type :=
| LogAnalyzing (account_id : string)
| LogHero
| LogIndustry (raw norm : string)
| LogFeaturesPrepared (ncols : nat)
| LogPrediction (prob : pyfloat)
| LogCalcError (e : exn)
| LogTraceback (e : exn)
| LogFallback (prob : pyfloat).

(** A computation prints some lines and then returns or raises. *)
Definition M (A : Type) : Type := (list line * result A)%type.

Definition ret {A} (a : A) : M A := ([], inr a).
Definition raise {A} (e : exn) : M A := ([], inl e).
Definition print (l : line) : M unit := ([l], inr tt).
Definition lift {A} (r : result A) : M A := ([], r).

Definition bind {A B} (m : M A) (k : A -> M B) : M B :=
  match m with
  | (out, inl e) => (out, inl e)
  | (out, inr a) => let (out', r) := k a in ((out ++ out')%list, r)
  end.

(** [try: m except Exception as e: h e]. *)
Definition try_except {A} (m : M A) (h : exn -> M A) : M A :=
  match m with
  | (out, inl e) => let (out', r) := h e in ((out ++ out')%list, r)
  | (out, inr a) => (out, inr a)
  end.

Definition stdout {A} (m : M A) : list line := fst m.
Definition outcome {A} (m : M A) : result A := snd m.

Notation "'let*' x ':=' m 'in' k" := (bind m (fun x => k))
  (at level 10, x pattern, m at level 100, k at level 200).
Notation "m ';;' k" := (bind m (fun _ => k))
  (at level 100, k at level 200, right associativity).

(** ** One-row data frames *)

(** A cell is a Python [int] or a float of type [F]. *)
Inductive cell (F : Type) : Type :=
| CInt (z : Z)
| CFloat (f : F).
Arguments CInt {F} z.
Arguments CFloat {F} f.

(** The row of a one-row frame, in column order. *)
Definition DataFrame (F : Type) : Type := list (string * cell F).

Definition columns {F} (df : DataFrame F) : list string := map fst df.

(** [df[name]] for reading. *)
Fixpoint column {F} (df : DataFrame F) (name : string) : option (cell F) :=
  match df with
  | [] => None
  | (n, c) :: df' => if String.eqb n name then Some c else column df' name
  end.

(** [df[name] = c]: overwrite the column in place, or append it. *)
Fixpoint set_column {F} (df : DataFrame F) (name : string) (c : cell F) : DataFrame F :=
  match df with
  | [] => [(name, c)]
  | (n, c') :: df' =>
      if String.eqb n name then (n, c) :: df' else (n, c') :: set_column df' name c
  end.

(** [df[names]]: the named columns in the order asked for. *)
Fixpoint select {F} (df : DataFrame F) (names : list string) : result (DataFrame F) :=
  match names with
  | [] => inr []
  | n :: names' =>
      match column df n, select df names' with
      | Some c, inr rest => inr ((n, c) :: rest)
      | None, _ => inl KeyError
      | _, inl e => inl e
      end
  end.

(** ** backend/predictor.py *)

Module Predictor.

(** What [numpy] hands back for a feature: a float, or the logarithm
    [ln (1 + q)] of a rational [q > -1], kept symbolic. *)
Inductive npfloat : Type :=
| NpVal (f : pyfloat)
| NpLog1p (q : Q).

(** [np.log1p]: outside its domain it warns and yields [-inf] or NaN;
    it never raises. *)
Definition np_log1p (x : pyfloat) : npfloat :=
  match x with
  | Fin q =>
      if Qltb (-1) q then NpLog1p q
      else if Qeq_bool q (-1) then NpVal (Inf true)
      else NpVal NaN
  | Inf false => NpVal (Inf false)
  | Inf true => NpVal NaN
  | NaN => NpVal NaN
  end.

Abbreviation Features := (DataFrame npfloat).

(** The predictor after [__init__]: the classifier (if one was loaded),
    seen through [float(model.predict_proba(X)[0][1])], and the expected
    column names ([[]] when the artifact declares none). *)
Record RecoveryPredictor : Type := {
  model : option (Features -> result pyfloat);
  feature_names : list string
}.

Record DCARecommendation : Type := {
  name : string;
  specialization : string;
  reasoning : string
}.

Record TopFactor : Type := {
  feature : string;
  impact : pyfloat;
  direction : string
}.

(** The dictionary [predict_recovery] returns. *)
Record Prediction : Type := {
  account_id : string;
  company_name : string;
  recovery_probability : pyfloat;
  recovery_percentage : pyfloat;
  expected_days : Z;
  recovery_velocity_score : pyfloat;
  risk_level : string;
  recommended_dca : DCARecommendation;
  top_factors : list TopFactor;
  prediction_timestamp : string
}.

(** [1 if cond else 0]. *)
Definition flag (b : bool) : cell npfloat := CInt (Z.b2z b).

(** The boolean-like fields [email_opened] and [dispute_flag]. *)
Definition boolean_feature (v : pyval) : Z :=
  match v with
  | PyStr s =>
      let u := upper s in
      Z.b2z (String.eqb u "TRUE" || String.eqb u "1" || String.eqb u "YES")
  | _ => Z.b2z (truthy v)
  end.

(** [float(data.get(key, 0) or 0)] and [int(data.get(key, 0) or 0)]. *)
Definition float_field (data : gmap string pyval) (key : string) : result pyfloat :=
  to_float (py_or (get data key (PyInt 0)) (PyInt 0)).

Definition int_field (data : gmap string pyval) (key : string) : result Z :=
  to_int (py_or (get data key (PyInt 0)) (PyInt 0)).

(** The folding of the display name: ["Technology"] becomes ["Tech"]. *)
Definition normalize_industry (industry_raw : string) : M string :=
  if String.eqb industry_raw "Technology"
  then print (LogIndustry industry_raw "Tech") ;; ret "Tech"
  else ret industry_raw.

Section WithInterpreter.

Variable float_repr : pyfloat -> string.

Local Abbreviation str := (py_str float_repr).

(** The first part of [prepare_features]: the fields read and coerced,
    the industry name folded, the feature dictionary and its frame. *)
Definition synthesize_features (data : gmap string pyval) : M Features :=
  let* amount := lift (float_field data "amount") in
  let* days_overdue := lift (int_field data "days_overdue") in
  let* payment_history := lift (float_field data "payment_history_score") in
  let* shipment_change := lift (float_field data "shipment_volume_change_30d") in
  let* shipment_volume := lift (int_field data "shipment_volume_30d") in
  let* express_ratio := lift (float_field data "express_ratio") in
  let* destination_div := lift (int_field data "destination_diversity") in
  let* contact_attempts := lift (int_field data "contact_attempts") in
  let* customer_tenure := lift (int_field data "customer_tenure_months") in
  let email_opened := boolean_feature (get data "email_opened" (PyInt 0)) in
  let dispute_flag := boolean_feature (get data "dispute_flag" (PyInt 0)) in
  let industry_raw := str (get data "industry" (PyStr "Other")) in
  let region := str (get data "region" (PyStr "Other")) in
  let* industry := normalize_industry industry_raw in
  let features : Features := [
    ("amount_log", CFloat (np_log1p amount));
    ("days_overdue", CInt days_overdue);
    ("payment_history_score", CFloat (NpVal payment_history));
    ("shipment_volume_change_30d", CFloat (NpVal shipment_change));
    ("shipment_volume_30d", CInt shipment_volume);
    ("express_ratio", CFloat (NpVal express_ratio));
    ("destination_diversity", CInt destination_div);
    ("contact_attempts", CInt contact_attempts);
    ("customer_tenure_months", CInt customer_tenure);
    ("email_opened", CInt email_opened);
    ("dispute_flag", CInt dispute_flag);
    ("industry_Construction", flag (String.eqb industry "Construction"));
    ("industry_Medical", flag (String.eqb industry "Medical"));
    ("industry_Retail", flag (String.eqb industry "Retail"));
    ("industry_Tech", flag (String.eqb industry "Tech"));
    ("industry_Textile", flag (String.eqb industry "Textile"));
    ("region_East", flag (String.eqb region "East"));
    ("region_North", flag (String.eqb region "North"));
    ("region_South", flag (String.eqb region "South"));
    ("region_West", flag (String.eqb region "West"))
  ] in
  ret features.

(** The second part, [if self.feature_names: ...]: the missing columns
    are added as 0, in the order the set yields them, and the expected
    columns are selected. *)
Definition align_features (self : RecoveryPredictor) (df : Features) : M Features :=
  match feature_names self with
  | [] => ret df
  | _ :: _ =>
      let missing_features : gset string :=
        list_to_set (feature_names self) ∖ list_to_set (columns df) in
      let df :=
        fold_left (fun df feat => set_column df feat (CInt 0))
                  (elements missing_features) df in
      lift (select df (feature_names self))
  end.

(** [RecoveryPredictor.prepare_features]. *)
Definition prepare_features (self : RecoveryPredictor) (data : gmap string pyval)
  : M Features :=
  let* df := synthesize_features data in
  let* df := align_features self df in
  print (LogFeaturesPrepared (length df)) ;;
  ret df.

(** The clock reading of [datetime.now().isoformat()]. *)
Variable now : string.

(** The sentinel account of the demonstration. *)
Definition hero_id : string := "ACC0001".

(** The dictionary returned for the sentinel account. *)
Definition hero_result (company : string) : Prediction := {|
  account_id := "ACC0001";
  company_name := company;
  recovery_probability := Fin 0.925;
  recovery_percentage := Fin 0.925;
  expected_days := 25;
  recovery_velocity_score := Fin 3.7;
  risk_level := "Low";
  recommended_dca := {|
    name := "In-House Retention Team";
    specialization := "Customer Loyalty";
    reasoning := "High value customer with excellent history. Gentle nudge recommended."
  |};
  top_factors := [
    {| feature := "payment_history_score"; impact := Fin 0.95; direction := "positive" |};
    {| feature := "shipment_volume_change_30d"; impact := Fin 0.40; direction := "positive" |};
    {| feature := "days_overdue"; impact := Fin 0.10; direction := "neutral" |}
  ];
  prediction_timestamp := now
|}.

(** The body of the [try] block: the model check, the encoding, the call
    of the classifier. *)
Definition try_inference (self : RecoveryPredictor) (data : gmap string pyval)
  : M pyfloat :=
  match model self with
  | None => raise ValueError
  | Some predict_proba =>
      let* X := prepare_features self data in
      let* prob := lift (predict_proba X) in
      print (LogPrediction prob) ;;
      ret prob
  end.

(** [original_history if original_history > 0 else 0.5]. *)
Definition fallback_probability (original_history : pyfloat) : pyfloat :=
  if fgt original_history (Fin 0) then original_history else Fin 0.5.

(** The [except Exception] handler. *)
Definition on_calculation_error (original_history : pyfloat) (e : exn) : M pyfloat :=
  print (LogCalcError e) ;;
  print (LogTraceback e) ;;
  let prob := fallback_probability original_history in
  print (LogFallback prob) ;;
  ret prob.

(** [int(base + (1 - prob) * slope)]. *)
Definition days_formula (base slope : Q) (prob : pyfloat) : result Z :=
  int_of_float (fadd (Fin base) (fmul (fsub (Fin 1) prob) (Fin slope))).

(** The first [if]/[elif] chain: the expected number of days. *)
Definition expected_days_of (prob : pyfloat) : result Z :=
  if fgt prob (Fin 0.8) then days_formula 30 50 prob
  else if fgt prob (Fin 0.6) then days_formula 45 60 prob
  else if fgt prob (Fin 0.4) then days_formula 60 80 prob
  else days_formula 90 90 prob.

(** The second chain: the risk level. *)
Definition risk_level_of (prob : pyfloat) : string :=
  if fgt prob (Fin 0.8) then "Low"
  else if fgt prob (Fin 0.6) then "Medium"
  else if fgt prob (Fin 0.4) then "High"
  else "Very High".

Definition premium_dca : DCARecommendation := {|
  name := "Premium Recovery Services";
  specialization := "High-value accounts";
  reasoning := "Excellent payment history and strong business indicators"
|}.

Definition standard_dca : DCARecommendation := {|
  name := "Standard Recovery Partners";
  specialization := "General collections";
  reasoning := "Reliable performance across all account types"
|}.

Definition specialist_dca : DCARecommendation := {|
  name := "Recovery Specialists Inc";
  specialization := "Challenging cases";
  reasoning := "Experienced in difficult recovery scenarios with legal support"
|}.

(** The third chain: the recommended agency. *)
Definition dca_of (prob : pyfloat) : DCARecommendation :=
  if fgt prob (Fin 0.8) then premium_dca
  else if fgt prob (Fin 0.6) then standard_dca
  else specialist_dca.

(** The three factors appended to [factors]. *)
Definition factors_of (original_history original_shipment : pyfloat) (original_days : Z)
  : result (list TopFactor) :=
  match fdiv (float_of_int original_days) (Fin 180) with
  | inl e => inl e
  | inr ratio =>
      let days_impact := py_min ratio (Fin 1) in
      inr [
        {| feature := "payment_history_score";
           impact := original_history;
           direction := if fgt original_history (Fin 0.5) then "positive" else "neutral" |};
        {| feature := "shipment_volume_change_30d";
           impact := fabs original_shipment;
           direction := if fgt original_shipment (Fin 0) then "positive" else "negative" |};
        {| feature := "days_overdue";
           impact := days_impact;
           direction := if original_days <? 60 then "neutral" else "negative" |}
      ]
  end.

(** The rest of [predict_recovery] once [prob] is known: the metrics, the
    factors and the dictionary returned.  Nothing is printed here. *)
Definition derive_metrics (account_id company_name : string)
    (prob original_history original_shipment : pyfloat) (original_days : Z)
  : M Prediction :=
  let recovery_percentage := prob in
  let* expected_days := lift (expected_days_of prob) in
  let* recovery_velocity_score :=
    lift (fdiv (fmul prob (Fin 100)) (float_of_int (py_max expected_days 1))) in
  let risk_level := risk_level_of prob in
  let dca := dca_of prob in
  let* factors := lift (factors_of original_history original_shipment original_days) in
  let timestamp := now in
  ret {|
    account_id := account_id;
    company_name := company_name;
    recovery_probability := prob;
    recovery_percentage := recovery_percentage;
    expected_days := expected_days;
    recovery_velocity_score := round2 recovery_velocity_score;
    risk_level := risk_level;
    recommended_dca := dca;
    top_factors := factors;
    prediction_timestamp := timestamp
  |}.

(** [RecoveryPredictor.predict_recovery]. *)
Definition predict_recovery (self : RecoveryPredictor) (data : gmap string pyval)
  : M Prediction :=
  let account_id := str (get data "account_id" (PyStr "Unknown")) in
  let company_name := str (get data "company_name" (PyStr "Unknown Company")) in
  print (LogAnalyzing account_id) ;;
  if String.eqb account_id hero_id then
    print LogHero ;;
    ret (hero_result company_name)
  else
    let* original_amount := lift (float_field data "amount") in
    let* original_days := lift (int_field data "days_overdue") in
    let* original_history := lift (float_field data "payment_history_score") in
    let* original_shipment := lift (float_field data "shipment_volume_change_30d") in
    let* prob :=
      try_except (try_inference self data) (on_calculation_error original_history) in
    derive_metrics account_id company_name prob
                   original_history original_shipment original_days.

End WithInterpreter.

End Predictor.

(** ** backend/main.py: the batch endpoint *)

Module Main.

Import Predictor.

(** What [pd.read_csv] made of the upload. *)
Inductive upload : Type :=
| EmptyDataError
| ParserError
| Table (csv_columns : list string) (csv_rows : list (gmap string pyval)).

(** What ended the request inside the [try] block. *)
Inductive cause : Type :=
| Raised (e : exn)
| MissingColumns (missing_cols : list string)
| Unreadable.

Inductive detail : Type :=
| EngineNotLoaded
| CsvEmpty
| AnalysisFailed (c : cause).

(** One entry of ["predictions"]: the prediction with the two echoed
    fields. *)
Record AnalyzedAccount : Type := {
  prediction : Prediction;
  amount : pyfloat;
  days_overdue : Z
}.

Record Summary : Type := {
  high_probability : nat;
  medium_probability : nat;
  low_probability : nat
}.

Record Analysis : Type := {
  total_accounts : nat;
  predictions : list AnalyzedAccount;
  summary : Summary
}.

(** The endpoint answers with a body or with an [HTTPException]. *)
Inductive response : Type :=
| OK (body : Analysis)
| HTTPException (status_code : Z) (d : detail).

Definition required_cols : list string :=
  ["account_id"; "company_name"; "amount"; "days_overdue";
   "payment_history_score"; "shipment_volume_change_30d"].

Definition probability_of (p : AnalyzedAccount) : pyfloat :=
  recovery_probability (prediction p).

(** [sum(1 for p in predictions if cond p)]. *)
Definition count_if (cond : AnalyzedAccount -> bool) (l : list AnalyzedAccount) : nat :=
  length (filter (fun p => cond p = true) l).

Section WithInterpreter.

Variable float_repr : pyfloat -> string.
Variable now : string.

(** The body of the [for] loop for one row.  The store into [accounts_db]
    is left out (nothing in the request reads it back); its key lookup
    [account_dict['account_id']] is kept. *)
Definition process_row (predictor : RecoveryPredictor) (account_dict : gmap string pyval)
  : M AnalyzedAccount :=
  let* _ := lift (match account_dict !! "account_id" with
                  | Some k => inr k
                  | None => inl KeyError
                  end) in
  let* result := predict_recovery float_repr now predictor account_dict in
  let* amount := lift (float_field account_dict "amount") in
  let* days_overdue := lift (int_field account_dict "days_overdue") in
  ret {| prediction := result; amount := amount; days_overdue := days_overdue |}.

(** The [for] loop: rows in order, [predictions] growing at its end. *)
Fixpoint process_rows (predictor : RecoveryPredictor)
    (rows : list (gmap string pyval)) (predictions : list AnalyzedAccount)
  : M (list AnalyzedAccount) :=
  match rows with
  | [] => ret predictions
  | row :: rows' =>
      let* result_dict := process_row predictor row in
      process_rows predictor rows' (predictions ++ [result_dict])%list
  end.

(** [analyze_csv], from the parsed upload on: what is printed and the
    response. *)
Definition analyze_csv (predictor : option RecoveryPredictor) (file : upload)
  : list line * response :=
  match predictor with
  | None => ([], HTTPException 500 EngineNotLoaded)
  | Some predictor =>
      match file with
      | EmptyDataError => ([], HTTPException 400 CsvEmpty)
      | ParserError => ([], HTTPException 500 (AnalysisFailed Unreadable))
      | Table csv_columns csv_rows =>
          let missing_cols :=
            filter (fun col => col ∉ csv_columns) required_cols in
          match missing_cols with
          | _ :: _ => ([], HTTPException 500 (AnalysisFailed (MissingColumns missing_cols)))
          | [] =>
              match process_rows predictor csv_rows [] with
              | (out, inl e) => (out, HTTPException 500 (AnalysisFailed (Raised e)))
              | (out, inr predictions) =>
                  (out, OK {|
                    total_accounts := length predictions;
                    predictions := predictions;
                    summary := {|
                      high_probability :=
                        count_if (fun p => fgt (probability_of p) (Fin 0.7)) predictions;
                      medium_probability :=
                        count_if (fun p => flt (Fin 0.4) (probability_of p)
                                           && fle (probability_of p) (Fin 0.7)) predictions;
                      low_probability :=
                        count_if (fun p => fle (probability_of p) (Fin 0.4)) predictions
                    |}
                  |})
              end
          end
      end
  end.

End WithInterpreter.

End Main.

(** ** backend/shap_explainer.py *)

Module Explainer.

(** Attribution values, importances and feature values are finite here:
    they are rationals.  The module's diagnostic prints are left out. *)

Inductive ndarray : Type :=
| Arr1 (v : list Q)
| Arr2 (rows : list (list Q)).

(** What [explainer.shap_values] returns: a list of per-class arrays or
    one array. *)
Inductive shap_output : Type :=
| ShapList (per_class : list ndarray)
| ShapArray (a : ndarray).

(** [explainer.expected_value]: a scalar, or a list or array. *)
Inductive expected : Type :=
| Scalar (q : Q)
| PerClass (qs : list Q).

Record TreeExplainer : Type := {
  shap_values : DataFrame Q -> result shap_output;
  expected_value : result expected
}.

(** The attributes of the loaded model that [_fallback_explanation]
    probes with [hasattr]. *)
Inductive Model : Type :=
| WithImportances (feature_importances_ : result (list Q))
| WithGetScore (get_score : result (gmap string Q))
| Plain.

Record ExplainabilityEngine : Type := {
  model : option Model;
  explainer : option TreeExplainer
}.

Inductive feature_value : Type :=
| AsFloat (q : Q)
| AsStr (s : string).

Record Factor : Type := {
  feature : string;
  impact : Q;
  direction : string;
  value : feature_value
}.

Record Explanation : Type := {
  top_factors : list Factor;
  base_value : option Q;
  method : option string
}.

(** *** [_clean_feature_name] *)

Definition name_map : list (string * string) := [
  ("amount_log", "Invoice Amount (log)");
  ("amount", "Invoice Amount");
  ("days_overdue", "Days Overdue");
  ("payment_history_score", "Payment History Score");
  ("shipment_volume_change_30d", "Shipment Volume Change (30d)");
  ("shipment_volume_30d", "Shipment Volume (30d)");
  ("express_ratio", "Express Shipment Ratio");
  ("destination_diversity", "Shipping Destination Diversity");
  ("email_opened", "Email Engagement");
  ("dispute_flag", "Dispute History")
].

Fixpoint lookup_name (m : list (string * string)) (k : string) : option string :=
  match m with
  | [] => None
  | (k', v) :: m' => if String.eqb k' k then Some v else lookup_name m' k
  end.

Definition is_alpha (c : ascii) : bool :=
  let n := N_of_ascii c in
  ((65 <=? n)%N && (n <=? 90)%N) || ((97 <=? n)%N && (n <=? 122)%N).

(** [s.title()]: a letter after a non-letter is upper-cased, every other
    letter lower-cased. *)
Fixpoint title_from (after_letter : bool) (s : string) : string :=
  match s with
  | EmptyString => EmptyString
  | String c s' =>
      String (if is_alpha c then (if after_letter then to_lower c else to_upper c) else c)
             (title_from (is_alpha c) s')
  end.

Definition title (s : string) : string := title_from false s.

(** [name.split('_', 1)]: the text before the first underscore and the
    text after it, when there is one. *)
Fixpoint split_underscore (s : string) : option (string * string) :=
  match s with
  | EmptyString => None
  | String c s' =>
      if Ascii.eqb c "_" then Some (EmptyString, s')
      else match split_underscore s' with
           | Some (a, b) => Some (String c a, b)
           | None => None
           end
  end.

(** [name.replace('_', ' ')]. *)
Fixpoint underscores_to_spaces (s : string) : string :=
  match s with
  | EmptyString => EmptyString
  | String c s' =>
      String (if Ascii.eqb c "_" then " "%char else c) (underscores_to_spaces s')
  end.

Definition _clean_feature_name (name : string) : string :=
  match lookup_name name_map name with
  | Some display => display
  | None =>
      match split_underscore name with
      | Some (category, val) =>
          if String.eqb category "industry" || String.eqb category "region"
          then (title category ++ ": " ++ val)%string
          else title (underscores_to_spaces name)
      | None => title (underscores_to_spaces name)
      end
  end.

(** *** Ranking *)

Definition Qabs_ltb (q bound : Q) : bool := Qltb (Qabs q) bound.

(** The threshold [1e-10]. *)
Definition epsilon : Q := 1 # 10000000000.

(** A cell read back as a number. *)
Definition cell_value (c : cell Q) : Q :=
  match c with
  | CInt z => inject_Z z
  | CFloat q => q
  end.

(** [float(v) if isinstance(v, (int, float)) else str(v)]: a [numpy]
    float is a Python float, a [numpy] integer is not a Python int. *)
Definition report_value (c : cell Q) : feature_value :=
  match c with
  | CInt z => AsStr (pretty z)
  | CFloat q => AsFloat q
  end.

(** [list.sort(key=lambda x: abs(x['impact']), reverse=True)]: stable,
    largest magnitude first. *)
Fixpoint insert_desc (x : Factor) (l : list Factor) : list Factor :=
  match l with
  | [] => [x]
  | y :: l' =>
      if Qle_bool (Qabs (impact y)) (Qabs (impact x)) then x :: l
      else y :: insert_desc x l'
  end.

Fixpoint sort_desc (l : list Factor) : list Factor :=
  match l with
  | [] => []
  | x :: l' => insert_desc x (sort_desc l')
  end.

(** The loop over [zip(names, vals)] with [X_df.iloc[0, i]] at hand:
    [rest] is the row from column [i] on. *)
Fixpoint collect (dir : Q -> Q -> string) (rest : DataFrame Q) (vals : list Q)
  : list Factor :=
  match rest, vals with
  | (name, c) :: rest', val :: vals' =>
      if Qabs_ltb val epsilon then collect dir rest' vals'
      else {| feature := _clean_feature_name name;
              impact := val;
              direction := dir val (cell_value c);
              value := report_value c |} :: collect dir rest' vals'
  | _, _ => []
  end.

(** ["positive" if val > 0 else "negative"]. *)
Definition shap_direction (val feature_val : Q) : string :=
  if Qgtb val 0 then "positive" else "negative".

(** ["positive" if feature_value > 0 else "neutral"]. *)
Definition fallback_direction (imp feature_val : Q) : string :=
  if Qgtb feature_val 0 then "positive" else "neutral".

(** *** [_fallback_explanation] *)

Definition importances_of (m : option Model) (X_df : DataFrame Q) : result (list Q) :=
  match m with
  | Some (WithImportances imps) => imps
  | Some (WithGetScore score) =>
      match score with
      | inl e => inl e
      | inr importance_dict =>
          inr (map (fun f => default 0%Q (importance_dict !! f)) (columns X_df))
      end
  | _ => inr (map (fun nc => Qabs (cell_value (snd nc))) X_df)
  end.

Definition _fallback_explanation (self : ExplainabilityEngine) (X_df : DataFrame Q)
  : Explanation :=
  match importances_of (model self) X_df with
  | inr importances =>
      let feature_importance := collect fallback_direction X_df importances in
      let feature_importance := sort_desc feature_importance in
      {| top_factors := take 5 feature_importance;
         base_value := Some 0.5%Q;
         method := Some "feature_importance_fallback" |}
  | inl _ =>
      {| top_factors := []; base_value := None; method := None |}
  end.

(** *** [explain_prediction] *)

(** The class to read: the second of two, else the first. *)
Definition positive_class (out : shap_output) : option ndarray :=
  match out with
  | ShapList [c0; c1] => Some c1
  | ShapList (c0 :: _) => Some c0
  | ShapList [] => None
  | ShapArray a => Some a
  end.

(** The values of the single prediction: the first row of a matrix. *)
Definition first_row (a : ndarray) : option (list Q) :=
  match a with
  | Arr1 v => Some v
  | Arr2 (r :: _) => Some r
  | Arr2 [] => None
  end.

(** The base value, [0.5] when it cannot be read. *)
Definition base_value_of (e : result expected) : Q :=
  match e with
  | inr (Scalar q) => q
  | inr (PerClass qs) => match last qs with Some q => q | None => 0.5%Q end
  | inl _ => 0.5%Q
  end.

Definition explain_prediction (self : ExplainabilityEngine) (X_df : option (DataFrame Q))
  : Explanation :=
  match X_df with
  | None | Some [] => {| top_factors := []; base_value := None; method := None |}
  | Some X_df =>
      match explainer self with
      | None => _fallback_explanation self X_df
      | Some explainer =>
          match shap_values explainer X_df with
          | inl _ => _fallback_explanation self X_df
          | inr out =>
              match positive_class out with
              | None => _fallback_explanation self X_df
              | Some vals =>
                  match first_row vals with
                  | None => _fallback_explanation self X_df
                  | Some vals =>
                      let feature_importance := collect shap_direction X_df vals in
                      let feature_importance := sort_desc feature_importance in
                      {| top_factors := take 5 feature_importance;
                         base_value := Some (base_value_of (expected_value explainer));
                         method := None |}
                  end
              end
          end
      end
  end.

End Explainer.

(** ** backend/main.py: the account store and the single-account endpoints *)

Module Endpoints.

Import Predictor.

(** A request body that passed validation: the fields of
    [AccountRequest] with their declared types. *)
Record AccountRequest : Type := {
  account_id : string;
  company_name : string;
  amount : pyfloat;
  days_overdue : Z;
  payment_history_score : pyfloat;
  shipment_volume_change_30d : pyfloat;
  shipment_volume_30d : option Z;
  express_ratio : option pyfloat;
  destination_diversity : option Z;
  industry : option string;
  region : option string;
  email_opened : option bool;
  dispute_flag : option bool
}.

(** An optional field in the dictionary: its value or [None]. *)
Definition optional {A} (f : A -> pyval) (o : option A) : pyval :=
  match o with
  | Some a => f a
  | None => PyNone
  end.

(** [data.dict()]. *)
Definition dict (data : AccountRequest) : gmap string pyval :=
  list_to_map [
    ("account_id", PyStr (account_id data));
    ("company_name", PyStr (company_name data));
    ("amount", PyFloat (amount data));
    ("days_overdue", PyInt (days_overdue data));
    ("payment_history_score", PyFloat (payment_history_score data));
    ("shipment_volume_change_30d", PyFloat (shipment_volume_change_30d data));
    ("shipment_volume_30d", optional PyInt (shipment_volume_30d data));
    ("express_ratio", optional PyFloat (express_ratio data));
    ("destination_diversity", optional PyInt (destination_diversity data));
    ("industry", optional PyStr (industry data));
    ("region", optional PyStr (region data));
    ("email_opened", optional PyBool (email_opened data));
    ("dispute_flag", optional PyBool (dispute_flag data))
  ].

(** [accounts_db].  A key that is a string never equals one that is not,
    so the entries under strings form a map of their own; the entries
    under other keys (the batch endpoint takes the key from the upload)
    are kept as the sequence of stores, since no endpoint reads them back
    by key. *)
Record accounts : Type := {
  named : gmap string (gmap string pyval);
  unnamed : list (pyval * gmap string pyval)
}.

(** [accounts_db[key] = account]. *)
Definition store (db : accounts) (key : pyval) (account : gmap string pyval) : accounts :=
  match key with
  | PyStr id => {| named := <[id := account]> (named db); unnamed := unnamed db |}
  | _ => {| named := named db; unnamed := (unnamed db ++ [(key, account)])%list |}
  end.

Inductive failure : Type :=
| EngineNotLoaded
| PredictionFailed (e : exn)
| AccountNotFound (account_id : string).

(** What a single-account endpoint answers. *)
Inductive reply : Type :=
| OK (body : Main.AnalyzedAccount)
| HTTPException (status_code : Z) (d : failure).

Definition reply_of (r : result Main.AnalyzedAccount) : reply :=
  match r with
  | inl e => HTTPException 500 (PredictionFailed e)
  | inr body => OK body
  end.

Section WithInterpreter.

Variable float_repr : pyfloat -> string.
Variable now : string.

(** The prediction with the two echoed fields, as both single-account
    endpoints build it: [float(account_data.get('amount', 0))] and
    [int(account_data.get('days_overdue', 0))], without [or 0]. *)
Definition predict_and_echo (predictor : RecoveryPredictor)
    (account_data : gmap string pyval) : M Main.AnalyzedAccount :=
  let* result := predict_recovery float_repr now predictor account_data in
  let* amount := lift (to_float (get account_data "amount" (PyInt 0))) in
  let* days_overdue := lift (to_int (get account_data "days_overdue" (PyInt 0))) in
  ret {| Main.prediction := result;
         Main.amount := amount;
         Main.days_overdue := days_overdue |}.

(** [predict_single]: the store after the call, what is printed, the
    answer. *)
Definition predict_single (predictor : option RecoveryPredictor) (db : accounts)
    (data : AccountRequest) : accounts * (list line * reply) :=
  match predictor with
  | None => (db, ([], HTTPException 500 EngineNotLoaded))
  | Some predictor =>
      let account_data := dict data in
      match account_data !! "account_id" with
      | None => (db, ([], HTTPException 500 (PredictionFailed KeyError)))
      | Some key =>
          let db := store db key account_data in
          let (out, r) := predict_and_echo predictor account_data in
          (db, (out, reply_of r))
      end
  end.

(** [get_account]; it reads the store and never writes it. *)
Definition get_account (predictor : option RecoveryPredictor) (db : accounts)
    (account_id : string) : list line * reply :=
  match predictor with
  | None => ([], HTTPException 500 EngineNotLoaded)
  | Some predictor =>
      match named db !! account_id with
      | None => ([], HTTPException 404 (AccountNotFound account_id))
      | Some account_data =>
          let (out, r) := predict_and_echo predictor account_data in
          (out, reply_of r)
      end
  end.

(** The store made by one turn of the loop of [analyze_csv]; a row
    without the key raises before anything is stored. *)
Definition store_row (db : accounts) (row : gmap string pyval) : accounts :=
  match row !! "account_id" with
  | Some key => store db key row
  | None => db
  end.

(** The loop of [analyze_csv] with the store threaded through it. *)
Fixpoint process_rows (predictor : RecoveryPredictor) (db : accounts)
    (rows : list (gmap string pyval)) (predictions : list Main.AnalyzedAccount)
  : accounts * M (list Main.AnalyzedAccount) :=
  match rows with
  | [] => (db, ret predictions)
  | row :: rows' =>
      let db := store_row db row in
      match Main.process_row float_repr now predictor row with
      | (out, inl e) => (db, (out, inl e))
      | (out, inr result_dict) =>
          let (db', m) :=
            process_rows predictor db rows' (predictions ++ [result_dict])%list in
          (db', ((out ++ stdout m)%list, outcome m))
      end
  end.

(** The store after [analyze_csv]: nothing is stored before the loop. *)
Definition analyze_csv_store (predictor : option RecoveryPredictor) (db : accounts)
    (file : Main.upload) : accounts :=
  match predictor, file with
  | Some predictor, Main.Table csv_columns csv_rows =>
      match filter (fun col => col ∉ csv_columns) Main.required_cols with
      | [] => fst (process_rows predictor db csv_rows [])
      | _ :: _ => db
      end
  | _, _ => db
  end.

End WithInterpreter.

End Endpoints.

(** ** backend/predictor.py and backend/shap_explainer.py: loading the artifact *)

Module Loader.

(** An unpickled object that is not a dictionary, by the attributes the
    loaders probe.  Such an object is truthy. *)
Record Estimator : Type := {
  can_predict : bool;                    (* it has [predict] or [predict_proba] *)
  predict_proba : Predictor.Features -> result pyfloat;
  feature_names_in_ : option (list string);
  booster_feature_names : result (list string)   (* [get_booster().feature_names] *)
}.

(** What a key meant for a model holds: an estimator, or [None]. *)
Definition slot : Type := option Estimator.

(** What the key ['models'] holds: a dictionary, with or without the key
    ['classifier'], or something else, on which ['classifier' in _]
    together with the indexing that follows raises or finds nothing. *)
Inductive models_value : Type :=
| Models (classifier : option slot)
| NotADict (lookup_raises : bool).

(** An unpickled dictionary, by the keys the loaders look at. *)
Record package : Type := {
  key_models : option models_value;
  key_feature_names : option (list string);
  key_model : option slot;
  key_features : option (list string);
  key_classifier : option slot;
  other_keys : bool
}.

Inductive artifact : Type :=
| Direct (m : Estimator)
| Package (pkg : package)
| NoneObject.

(** [os.path.join("backend", "models", "recovery_model.pkl")] and its
    sibling. *)
Definition possible_paths : list string :=
  ["backend/models/recovery_model.pkl"; "models/recovery_model.pkl"].

(** The first path that exists. *)
Fixpoint first_existing (path_exists : string -> bool) (paths : list string)
  : option string :=
  match paths with
  | [] => None
  | path :: paths' =>
      if path_exists path then Some path else first_existing path_exists paths'
  end.

(** The [try] block of [RecoveryPredictor.__init__] up to the
    synchronisation: the model and the names set so far, or the
    exception that left both at their defaults. *)
Definition extract (a : artifact) : result (slot * list string) :=
  match a with
  | Direct m => inr (if can_predict m then Some m else None, [])
  | Package pkg =>
      match key_models pkg with
      | Some (NotADict true) => inl TypeError
      | found =>
          let model :=
            match found with
            | Some (Models (Some c)) => c
            | _ => None
            end in
          inr (model, default [] (key_feature_names pkg))
      end
  | NoneObject => inr (None, [])
  end.

(** [RecoveryPredictor.__init__], from the file system and [joblib.load]
    on; the prints are left out.  A falsy object under ['classifier']
    leaves the predictor without a model. *)
Definition __init__ (path_exists : string -> bool) (load : string -> result artifact)
  : Predictor.RecoveryPredictor :=
  let unloaded := {| Predictor.model := None; Predictor.feature_names := [] |} in
  match first_existing path_exists possible_paths with
  | None => unloaded
  | Some model_path =>
      match load model_path with
      | inl _ => unloaded
      | inr a =>
          match extract a with
          | inl _ => unloaded
          | inr (Some m, names) =>
              {| Predictor.model := Some (predict_proba m);
                 Predictor.feature_names :=
                   match feature_names_in_ m with
                   | Some own => own
                   | None => names
                   end |}
          | inr (None, names) =>
              {| Predictor.model := None; Predictor.feature_names := names |}
          end
      end
  end.

(** What [ExplainabilityEngine._load_model] keeps as its model: an
    estimator, or the dictionary itself. *)
Inductive loaded : Type :=
| AnEstimator (m : Estimator)
| TheDictionary (pkg : package).

(** The alternative places [_load_model] looks at, the last of them
    beside the module. *)
Definition alt_paths (module_dir : string) : list string :=
  ["models/recovery_model.pkl";
   "backend/models/recovery_model.pkl";
   "../backend/models/recovery_model.pkl";
   (module_dir ++ "/models/recovery_model.pkl")%string].

Definition present {A} (o : option A) : bool :=
  match o with
  | Some _ => true
  | None => false
  end.

(** Truthiness of a dictionary: it has a key. *)
Definition nonempty (pkg : package) : bool :=
  present (key_models pkg) || present (key_feature_names pkg)
  || present (key_model pkg) || present (key_features pkg)
  || present (key_classifier pkg) || other_keys pkg.

Definition of_slot (c : slot) : option loaded :=
  match c with
  | Some m => Some (AnEstimator m)
  | None => None
  end.

(** The model and the names [_load_model] reads off the unpickled
    object, before the check [if not self.model]; [None] where [.get] is
    called on what has no such method, which raises. *)
Definition resolve (a : artifact) : option (option loaded * list string) :=
  match a with
  | Package pkg =>
      match key_models pkg, key_model pkg with
      | Some (Models c), _ =>
          Some (of_slot (default None c), default [] (key_feature_names pkg))
      | Some (NotADict _), _ => None
      | None, Some c =>
          Some (of_slot c,
                default (default [] (key_feature_names pkg)) (key_features pkg))
      | None, None =>
          Some (match key_classifier pkg with
                | Some c => of_slot c
                | None => if nonempty pkg then Some (TheDictionary pkg) else None
                end,
                default [] (key_feature_names pkg))
      end
  | Direct m =>
      Some (Some (AnEstimator m),
            match booster_feature_names m with
            | inr names => names
            | inl _ => []
            end)
  | NoneObject => Some (None, [])
  end.

(** [ExplainabilityEngine._load_model]: the model and the feature names
    it leaves in the engine; every failure leaves [None] and [[]]. *)
Definition _load_model (path_exists : string -> bool) (load : string -> result artifact)
    (module_dir : string) (model_path : string) : option loaded * list string :=
  let model_file :=
    if path_exists model_path then model_path
    else default model_path (first_existing path_exists (alt_paths module_dir)) in
  if negb (path_exists model_file) then (None, [])
  else
    match load model_file with
    | inl _ => (None, [])
    | inr a =>
        match resolve a with
        | Some (Some model, names) => (Some model, names)
        | _ => (None, [])
        end
    end.

End Loader.

(** ** The bucket table of the specification *)

Module BucketTable.

(** The four rows of the table, as the specification words them. *)
Inductive bucket : Type := Low | Medium | High | VeryHigh.

(** The probability range of a row. *)
Definition in_range (b : bucket) (p : Q) : Prop :=
  match b with
  | Low => (0.8 < p)%Q
  | Medium => (0.6 < p /\ p <= 0.8)%Q
  | High => (0.4 < p /\ p <= 0.6)%Q
  | VeryHigh => (p <= 0.4)%Q
  end.

(** The expected-days formula of a row, before flooring. *)
Definition days (b : bucket) (p : Q) : Q :=
  match b with
  | Low => 30 + (1 - p) * 50
  | Medium => 45 + (1 - p) * 60
  | High => 60 + (1 - p) * 80
  | VeryHigh => 90 + (1 - p) * 90
  end%Q.

Definition risk (b : bucket) : string :=
  match b with
  | Low => "Low"
  | Medium => "Medium"
  | High => "High"
  | VeryHigh => "Very High"
  end.

End BucketTable.

Import Predictor.

(** ** Vocabulary of the statements *)

(** The chain of [predict_recovery] picks the row of the table by its
    first test that holds. *)
Definition bucket_of (p : Q) : BucketTable.bucket :=
  if Qgtb p 0.8 then BucketTable.Low
  else if Qgtb p 0.6 then BucketTable.Medium
  else if Qgtb p 0.4 then BucketTable.High
  else BucketTable.VeryHigh.



(** The columns of the feature dictionary, in its order. *)
Definition canonical_columns : list string := [
  "amount_log"; "days_overdue"; "payment_history_score";
  "shipment_volume_change_30d"; "shipment_volume_30d"; "express_ratio";
  "destination_diversity"; "contact_attempts"; "customer_tenure_months";
  "email_opened"; "dispute_flag";
  "industry_Construction"; "industry_Medical"; "industry_Retail";
  "industry_Tech"; "industry_Textile";
  "region_East"; "region_North"; "region_South"; "region_West"
].



(** ** Sample inputs *)

(** A stand-in for [repr] on floats; the sample records hold no float
    where a string is read. *)
Definition sample_repr (f : pyfloat) : string := "nan".

Definition sample_now : string := "2026-01-01T00:00:00".

(** The record of the specification's example. *)
Definition record_T1 : gmap string pyval :=
  list_to_map [
    ("account_id", PyStr "T1");
    ("company_name", PyStr "Test Company Inc");
    ("amount", PyInt 150000);
    ("days_overdue", PyInt 45);
    ("payment_history_score", PyFloat (Fin 0.75));
    ("shipment_volume_change_30d", PyFloat (Fin 0.25));
    ("industry", PyStr "Technology");
    ("region", PyStr "South")
  ].

(** A credit note: the amount is negative. *)
Definition record_credit : gmap string pyval :=
  <["account_id" := PyStr "T2"]> (<["amount" := PyInt (-5)]> record_T1).

(** The sentinel account with an amount that is no number. *)
Definition record_hero : gmap string pyval :=
  <["account_id" := PyStr "ACC0001"]> (<["amount" := PyStr "N/A"]> record_T1).

(** Rows of an upload whose [amount] column holds text in one row, so
    that [pandas] keeps the whole column as strings. *)
Definition row_1 : gmap string pyval :=
  <["account_id" := PyStr "R1"]> (<["amount" := PyStr "150000"]> record_T1).

Definition row_2 : gmap string pyval :=
  <["account_id" := PyStr "R2"]> (<["amount" := PyStr "unknown"]> record_T1).

Definition row_3 : gmap string pyval :=
  <["account_id" := PyStr "R3"]> (<["amount" := PyStr "2000"]> record_T1).

(** A predictor that found no model file. *)
Definition predictor_without_model : RecoveryPredictor :=
  {| model := None; feature_names := [] |}.

(** A predictor whose classifier answers 0.5 and that expects three
    columns, one of them never synthesized. *)
Definition predictor_three_columns : RecoveryPredictor :=
  {| model := Some (fun _ => inr (Fin 0.5));
     feature_names := ["industry_Tech"; "loyalty_tier"; "amount_log"] |}.

(** A predictor with the canonical schema. *)
Definition predictor_canonical : RecoveryPredictor :=
  {| model := Some (fun _ => inr (Fin 0.5)); feature_names := canonical_columns |}.

(** ** Vocabulary of the further statements *)

(** The industry name after the folding. *)
Definition folded_industry (float_repr : pyfloat -> string) (data : gmap string pyval)
  : string :=
  let industry_raw := py_str float_repr (get data "industry" (PyStr "Other")) in
  if String.eqb industry_raw "Technology" then "Tech" else industry_raw.

(** The categories that have an indicator column. *)
Definition industries : list string :=
  ["Construction"; "Medical"; "Retail"; "Tech"; "Textile"].

Definition regions : list string := ["East"; "North"; "South"; "West"].

(** The eleven columns that hold a flag. *)
Definition flag_columns : list string :=
  ["email_opened"; "dispute_flag"] ++
  map (String.append "industry_") industries ++
  map (String.append "region_") regions.

(** The keys read with [float(... or 0)] and those read with
    [int(... or 0)]. *)
Definition float_keys : list string :=
  ["amount"; "payment_history_score"; "shipment_volume_change_30d"; "express_ratio"].

Definition int_keys : list string :=
  ["days_overdue"; "shipment_volume_30d"; "destination_diversity";
   "contact_attempts"; "customer_tenure_months"].

(** A value [float(v or 0)] accepts: anything but a non-empty string
    that is no number. *)
Definition float_like (v : pyval) : Prop :=
  match v with
  | PyStr s => s = "" \/ is_Some (parse_float s)
  | _ => True
  end.

(** A value [int(v or 0)] accepts: anything but a NaN, an infinity, or a
    non-empty string that is no integer. *)
Definition int_like (v : pyval) : Prop :=
  match v with
  | PyStr s => s = "" \/ is_Some (parse_int s)
  | PyFloat (Fin _) => True
  | PyFloat _ => False
  | _ => True
  end.

(** The three features of the factor list, in its order. *)
Definition factor_features : list string :=
  ["payment_history_score"; "shipment_volume_change_30d"; "days_overdue"].

Definition risk_levels : list string := ["Low"; "Medium"; "High"; "Very High"].

(** The days each row of the table can give. *)
Definition days_range (b : BucketTable.bucket) : Z * Z :=
  match b with
  | BucketTable.Low => (30, 39)
  | BucketTable.Medium => (57, 68)
  | BucketTable.High => (92, 107)
  | BucketTable.VeryHigh => (144, 180)
  end.

(** A predictor whose classifier answers NaN. *)
Definition predictor_nan : RecoveryPredictor :=
  {| model := Some (fun _ => inr NaN); feature_names := [] |}.

(** A prediction of the batch whose probability is a finite number. *)
Definition finite_probability (p : Main.AnalyzedAccount) : Prop :=
  exists q, Main.probability_of p = Fin q.


Definition empty_accounts : Endpoints.accounts :=
  {| Endpoints.named := ∅; Endpoints.unnamed := [] |}.

(** A factor that stands for a column of the frame: it carries the label
    of the column and reports its cell. *)
Definition from_column (X_df : DataFrame Q) (f : Explainer.Factor) : Prop :=
  exists name c,
    (name, c) ∈ X_df /\
    Explainer.feature f = Explainer._clean_feature_name name /\
    Explainer.value f = Explainer.report_value c.

(** An estimator that knows the columns it was fitted on. *)
Definition sample_estimator : Loader.Estimator := {|
  Loader.can_predict := true;
  Loader.predict_proba := fun _ => inr (Fin 0.5);
  Loader.feature_names_in_ := Some ["amount_log"; "days_overdue"; "industry_Tech"];
  Loader.booster_feature_names := inl ModelError
|}.

(** A pickle of the first structure, whose list of names differs from
    the one of its classifier. *)
Definition package_models : Loader.package := {|
  Loader.key_models := Some (Loader.Models (Some (Some sample_estimator)));
  Loader.key_feature_names := Some ["days_overdue"; "amount_log"];
  Loader.key_model := None;
  Loader.key_features := None;
  Loader.key_classifier := None;
  Loader.other_keys := false
|}.

(** A pickle of the second structure. *)
Definition package_model : Loader.package := {|
  Loader.key_models := None;
  Loader.key_feature_names := None;
  Loader.key_model := Some (Some sample_estimator);
  Loader.key_features := Some ["amount_log"; "days_overdue"];
  Loader.key_classifier := None;
  Loader.other_keys := false
|}.

(** A file system with the one model file, beside the working directory. *)
Definition one_model_file (path : string) : bool :=
  String.eqb path "models/recovery_model.pkl".

(** * Properties *)

(** ** Comparisons and truncation *)

Lemma Qgtb_true (a b : Q) : Qgtb a b = true <-> (b < a)%Q.
Proof.
  unfold Qgtb. rewrite Bool.negb_true_iff, <- Bool.not_true_iff_false, Qle_bool_iff.
  split; [apply Qnot_le_lt | apply Qlt_not_le].
Qed.

Lemma Qgtb_false (a b : Q) : Qgtb a b = false <-> (a <= b)%Q.
Proof.
  unfold Qgtb. rewrite Bool.negb_false_iff. apply Qle_bool_iff.
Qed.

Lemma Qltb_true (a b : Q) : Qltb a b = true <-> (a < b)%Q.
Proof. apply (Qgtb_true b a). Qed.

Lemma Qltb_false (a b : Q) : Qltb a b = false <-> (b <= a)%Q.
Proof. apply (Qgtb_false b a). Qed.

(** On a non-negative number [int()] is the floor. *)
Lemma Qtrunc_floor (q : Q) : (0 <= q)%Q -> Qtrunc q = Qfloor q.
Proof.
  destruct q as [n d]. unfold Qle, Qtrunc, Qfloor. simpl. intros Hn.
  apply Z.quot_div_nonneg; lia.
Qed.

Lemma Qfloor_bounds (q : Q) (lo hi : Z) :
  (inject_Z lo <= q)%Q -> (q <= inject_Z hi)%Q -> lo <= Qfloor q <= hi.
Proof.
  intros Hlo Hhi. split.
  - rewrite <- (Qfloor_Z lo). now apply Qfloor_resp_le.
  - rewrite <- (Qfloor_Z hi). now apply Qfloor_resp_le.
Qed.

(** ** The derived metrics on a finite probability *)

Section DerivedMetrics.

Lemma bucket_of_in_range (p : Q) : BucketTable.in_range (bucket_of p) p.
Proof.
  unfold bucket_of.
  destruct (Qgtb p 0.8) eqn:H8; [now apply Qgtb_true |].
  destruct (Qgtb p 0.6) eqn:H6; [split; [now apply Qgtb_true | now apply Qgtb_false] |].
  destruct (Qgtb p 0.4) eqn:H4; [split; [now apply Qgtb_true | now apply Qgtb_false] |].
  now apply Qgtb_false.
Qed.


Lemma days_formula_fin (base slope p : Q) :
  days_formula base slope (Fin p) = inr (Qtrunc (base + (1 + - p) * slope)).
Proof. reflexivity. Qed.

Lemma expected_days_of_fin (p : Q) :
  expected_days_of (Fin p) =
  inr (Qtrunc (match bucket_of p with
               | BucketTable.Low => 30 + (1 + - p) * 50
               | BucketTable.Medium => 45 + (1 + - p) * 60
               | BucketTable.High => 60 + (1 + - p) * 80
               | BucketTable.VeryHigh => 90 + (1 + - p) * 90
               end)%Q).
Proof.
  unfold expected_days_of, bucket_of, fgt.
  destruct (Qgtb p 0.8); [apply days_formula_fin |].
  destruct (Qgtb p 0.6); [apply days_formula_fin |].
  destruct (Qgtb p 0.4); apply days_formula_fin.
Qed.

Lemma risk_level_of_fin (p : Q) :
  risk_level_of (Fin p) = BucketTable.risk (bucket_of p).
Proof.
  unfold risk_level_of, bucket_of, fgt.
  destruct (Qgtb p 0.8); [reflexivity |].
  destruct (Qgtb p 0.6); [reflexivity |].
  destruct (Qgtb p 0.4); reflexivity.
Qed.

Lemma table_days_bounds (p : Q) :
  (0 <= p <= 1)%Q ->
  (1 <= BucketTable.days (bucket_of p) p <= 180)%Q.
Proof.
  intros Hp. pose proof (bucket_of_in_range p) as Hr.
  destruct (bucket_of p); cbn [BucketTable.in_range BucketTable.days] in *; lra.
Qed.

Lemma expected_days_of_table (p : Q) :
  (0 <= p <= 1)%Q ->
  expected_days_of (Fin p) = inr (Qfloor (BucketTable.days (bucket_of p) p)).
Proof.
  intros Hp. rewrite expected_days_of_fin. f_equal.
  pose proof (table_days_bounds p Hp) as Hb.
  assert (Heq : (match bucket_of p with
                 | BucketTable.Low => 30 + (1 + - p) * 50
                 | BucketTable.Medium => 45 + (1 + - p) * 60
                 | BucketTable.High => 60 + (1 + - p) * 80
                 | BucketTable.VeryHigh => 90 + (1 + - p) * 90
                 end)%Q = BucketTable.days (bucket_of p) p)
    by (destruct (bucket_of p); reflexivity).
  rewrite Heq. apply Qtrunc_floor. lra.
Qed.

(** The table's value never grows with the probability, also from one
    row to the next. *)
Lemma table_days_antitone (p1 p2 : Q) :
  (0 <= p1)%Q -> (p1 <= p2)%Q -> (p2 <= 1)%Q ->
  (BucketTable.days (bucket_of p2) p2 <= BucketTable.days (bucket_of p1) p1)%Q.
Proof.
  intros H0 H12 H1.
  pose proof (bucket_of_in_range p1) as Hr1.
  pose proof (bucket_of_in_range p2) as Hr2.
  destruct (bucket_of p1), (bucket_of p2);
    cbn [BucketTable.in_range BucketTable.days] in *; lra.
Qed.



(** C7, as the code has it.  For every probability [p] with
    [0.4 < p <= 0.6] the recommended agency is the specialist one, the
    same as for every [p' <= 0.4], and the risk level is High. *)
Theorem dca_high_risk_is_specialist (p : Q) :
  (0.4 < p)%Q -> (p <= 0.6)%Q ->
  dca_of (Fin p) = specialist_dca /\
  (forall p' : Q, (p' <= 0.4)%Q -> dca_of (Fin p') = dca_of (Fin p)) /\
  risk_level_of (Fin p) = "High".
Proof.
  intros Hlo Hhi.
  assert (H8 : forall q : Q, (q <= 0.6)%Q -> dca_of (Fin q) = specialist_dca).
  { intros q Hq. unfold dca_of, fgt.
    assert (E8 : Qgtb q 0.8 = false) by (apply Qgtb_false; lra).
    assert (E6 : Qgtb q 0.6 = false) by (apply Qgtb_false; lra).
    now rewrite E8, E6. }
  split; [now apply H8 |].
  split.
  - intros p' Hp'. rewrite (H8 p Hhi). apply H8. lra.
  - unfold risk_level_of, fgt.
    assert (E8 : Qgtb p 0.8 = false) by (apply Qgtb_false; lra).
    assert (E6 : Qgtb p 0.6 = false) by (apply Qgtb_false; lra).
    assert (E4 : Qgtb p 0.4 = true) by (apply Qgtb_true; lra).
    now rewrite E8, E6, E4.
Qed.

Lemma dca_high_risk_is_specialist_witness :
  dca_of (Fin 0.5) = specialist_dca /\
  (forall p' : Q, (p' <= 0.4)%Q -> dca_of (Fin p') = dca_of (Fin 0.5)) /\
  risk_level_of (Fin 0.5) = "High".
Proof.
  apply (dca_high_risk_is_specialist 0.5); [reflexivity | discriminate].
Defined.

(** C7, as the specification words it, fails at [p = 0.5]: the agency recommended
    there is not the standard one, which [p = 0.7] gets. *)
Lemma dca_high_risk_not_standard :
  (0.4 < 0.5)%Q /\ (0.5 <= 0.6)%Q /\
  dca_of (Fin 0.7) = standard_dca /\
  dca_of (Fin 0.5) <> standard_dca /\
  dca_of (Fin 0.5) <> dca_of (Fin 0.7).
Proof.
  split; [reflexivity |]. split; [discriminate |].
  split; [reflexivity |].
  split; vm_compute; discriminate.
Qed.

(** C10.  The expected number of days never grows with the probability:
    for [0 <= p1 <= p2 <= 1] both values exist and the one at [p2] is at
    most the one at [p1], also across the thresholds 0.4, 0.6 and 0.8. *)
Theorem expected_days_antitone (p1 p2 : Q) :
  (0 <= p1)%Q -> (p1 <= p2)%Q -> (p2 <= 1)%Q ->
  exists d1 d2 : Z,
    expected_days_of (Fin p1) = inr d1 /\
    expected_days_of (Fin p2) = inr d2 /\
    d2 <= d1.
Proof.
  intros H0 H12 H1.
  exists (Qfloor (BucketTable.days (bucket_of p1) p1)),
         (Qfloor (BucketTable.days (bucket_of p2) p2)).
  split; [apply expected_days_of_table; lra |].
  split; [apply expected_days_of_table; lra |].
  apply Qfloor_resp_le. now apply table_days_antitone.
Qed.

Lemma expected_days_antitone_witness :
  exists d1 d2 : Z,
    expected_days_of (Fin 0.8) = inr d1 /\
    expected_days_of (Fin 0.81) = inr d2 /\
    d2 <= d1.
Proof.
  apply (expected_days_antitone 0.8 0.81); discriminate.
Defined.

End DerivedMetrics.

(** ** The monad *)

Section MonadFacts.

Context {A B : Type}.

Lemma bind_returns (m : M A) (k : A -> M B) (out : list line) (a : A) :
  m = (out, inr a) ->
  bind m k = ((out ++ stdout (k a))%list, outcome (k a)).
Proof. intros ->. unfold bind, stdout, outcome. now destruct (k a). Qed.

Lemma bind_raises (m : M A) (k : A -> M B) (out : list line) (e : exn) :
  m = (out, inl e) -> bind m k = (out, inl e).
Proof. now intros ->. Qed.

Lemma bind_lift_inr (a : A) (k : A -> M B) : bind (lift (inr a)) k = k a.
Proof. unfold bind, lift. now destruct (k a). Qed.

Lemma bind_lift_inl (e : exn) (k : A -> M B) : bind (lift (inl e)) k = ([], inl e).
Proof. reflexivity. Qed.

Lemma bind_print (l : line) (k : unit -> M B) :
  bind (print l) k = (l :: stdout (k tt), outcome (k tt)).
Proof. unfold bind, print, stdout, outcome. now destruct (k tt). Qed.

Lemma outcome_bind_inr (m : M A) (k : A -> M B) (b : B) :
  outcome (bind m k) = inr b ->
  exists a, outcome m = inr a /\ outcome (k a) = inr b.
Proof.
  destruct m as [out [e | a]]; [discriminate |].
  unfold bind, outcome. simpl. intros H. exists a. split; [reflexivity |].
  now destruct (k a).
Qed.

Lemma outcome_bind (m : M A) (k : A -> M B) :
  outcome (bind m k) =
  match outcome m with
  | inl e => inl e
  | inr a => outcome (k a)
  end.
Proof.
  destruct m as [out [e | a]]; [reflexivity |].
  unfold bind, outcome. simpl. now destruct (k a).
Qed.


End MonadFacts.

Lemma surjective_run {A} (m : M A) : m = (stdout m, outcome m).
Proof. now destruct m. Qed.

Lemma outcome_run {A} (out : list line) (r : result A) : outcome (out, r) = r.
Proof. reflexivity. Qed.

(** ** The sentinel account *)

Section Hero.

Variable float_repr : pyfloat -> string.
Variable now : string.

(** C2.  A record whose account identifier reads as the sentinel gets the
    fixed demonstration result (probability 0.925, risk level Low, the
    fixed days, velocity, agency and factors), whatever the predictor and
    whatever its other fields hold; of these only the company name is
    read.  The two lines printed show that neither the encoder nor the
    classifier ran. *)
Theorem hero_account_override (self : RecoveryPredictor) (data : gmap string pyval) :
  py_str float_repr (get data "account_id" (PyStr "Unknown")) = hero_id ->
  let r := hero_result now
             (py_str float_repr (get data "company_name" (PyStr "Unknown Company"))) in
  predict_recovery float_repr now self data = ([LogAnalyzing hero_id; LogHero], inr r) /\
  recovery_probability r = Fin 0.925 /\
  risk_level r = "Low" /\
  expected_days r = 25 /\
  recovery_velocity_score r = Fin 3.7.
Proof.
  intros Hid r. split; [| repeat split].
  unfold predict_recovery. rewrite Hid. reflexivity.
Qed.

End Hero.

Lemma hero_account_override_witness :
  predict_recovery sample_repr sample_now predictor_canonical record_hero
  = ([LogAnalyzing hero_id; LogHero],
     inr (hero_result sample_now "Test Company Inc")) /\
  float_field record_hero "amount" = inl ValueError.
Proof.
  split; [| reflexivity].
  assert (Hid : py_str sample_repr (get record_hero "account_id" (PyStr "Unknown")) = hero_id)
    by reflexivity.
  destruct (hero_account_override sample_repr sample_now predictor_canonical
              record_hero Hid) as [Hrun _].
  exact Hrun.
Defined.

(** ** The fallback probability *)








Section Fallback.

Variable float_repr : pyfloat -> string.
Variable now : string.






(** The failures the [try] block meets: no model, the encoder raising,
    the classifier raising. *)
Lemma try_inference_without_model (self : RecoveryPredictor) (data : gmap string pyval) :
  model self = None -> try_inference float_repr self data = ([], inl ValueError).
Proof. unfold try_inference. now intros ->. Qed.

Lemma try_inference_classifier_raises (self : RecoveryPredictor)
    (data : gmap string pyval) predict_proba out X e :
  model self = Some predict_proba ->
  prepare_features float_repr self data = (out, inr X) ->
  predict_proba X = inl e ->
  try_inference float_repr self data = (out, inl e).
Proof.
  unfold try_inference. intros -> HX He.
  rewrite (bind_returns _ _ _ _ HX), He. simpl. now rewrite app_nil_r.
Qed.






(** Away from the sentinel account, the days, the risk level and the
    agency of a returned prediction are those the three chains give for
    its probability. *)
Lemma predict_recovery_derives (self : RecoveryPredictor)
    (data : gmap string pyval) (r : Prediction) :
  py_str float_repr (get data "account_id" (PyStr "Unknown")) <> hero_id ->
  outcome (predict_recovery float_repr now self data) = inr r ->
  expected_days_of (recovery_probability r) = inr (expected_days r) /\
  risk_level r = risk_level_of (recovery_probability r) /\
  recommended_dca r = dca_of (recovery_probability r).
Proof.
  intros Hid. unfold predict_recovery. rewrite bind_print.
  apply String.eqb_neq in Hid. rewrite Hid, outcome_run.
  intros H.
  apply outcome_bind_inr in H. destruct H as (a & _ & H).
  apply outcome_bind_inr in H. destruct H as (d & _ & H).
  apply outcome_bind_inr in H. destruct H as (h & _ & H).
  apply outcome_bind_inr in H. destruct H as (s & _ & H).
  apply outcome_bind_inr in H. destruct H as (prob & _ & H).
  unfold derive_metrics in H.
  apply outcome_bind_inr in H. destruct H as (days & Hdays & H).
  apply outcome_bind_inr in H. destruct H as (v & _ & H).
  apply outcome_bind_inr in H. destruct H as (fs & _ & H).
  injection H as <-. simpl. repeat split. exact Hdays.
Qed.


End Fallback.


(** The side condition of the last part is needed: with an infinite
    score the fallback probability is infinite, and [int()] on the days
    formula raises after the handler has run. *)
Example infinite_score_overflows :
  predict_recovery sample_repr sample_now predictor_without_model
    (<["payment_history_score" := PyFloat (Inf false)]> record_T1)
  = ([LogAnalyzing "T1"; LogCalcError ValueError; LogTraceback ValueError;
      LogFallback (Inf false)], inl OverflowError).
Proof. vm_compute. reflexivity. Qed.

(** ** Data frames *)

Section Frames.

Context {F : Type}.
Implicit Types (df : DataFrame F) (c : cell F).

Lemma column_None df (n : string) : column df n = None <-> n ∉ columns df.
Proof.
  induction df as [| [m c] df IH]; simpl.
  - split; [intros _; apply not_elem_of_nil | reflexivity].
  - rewrite not_elem_of_cons.
    destruct (String.eqb_spec m n) as [-> | Hne].
    + split; [discriminate | intros [H _]; now elim H].
    + rewrite IH. split; [intros H; split; [congruence | exact H] | intros [_ H]; exact H].
Qed.

Lemma column_Some_elem df (n : string) c : column df n = Some c -> n ∈ columns df.
Proof.
  intros H. destruct (decide (n ∈ columns df)) as [Hin | Hout]; [exact Hin |].
  apply column_None in Hout. congruence.
Qed.

Lemma column_set_column_eq df (n : string) c : column (set_column df n c) n = Some c.
Proof.
  induction df as [| [m c'] df IH]; simpl.
  - now rewrite String.eqb_refl.
  - destruct (String.eqb_spec m n) as [-> | Hne]; simpl.
    + now rewrite String.eqb_refl.
    + apply String.eqb_neq in Hne. now rewrite Hne.
Qed.

Lemma column_set_column_ne df (n m : string) c :
  n <> m -> column (set_column df m c) n = column df n.
Proof.
  intros Hnm. induction df as [| [k c'] df IH]; simpl.
  - assert (E : String.eqb m n = false) by (apply String.eqb_neq; congruence).
    now rewrite E.
  - destruct (String.eqb_spec k m) as [-> | Hkm]; simpl.
    + assert (E : String.eqb m n = false) by (apply String.eqb_neq; congruence).
      now rewrite E.
    + destruct (String.eqb k n); [reflexivity | exact IH].
Qed.

(** Filling a list of columns with one value. *)
Lemma column_fill (names : list string) df (n : string) c :
  column (fold_left (fun df feat => set_column df feat c) names df) n =
  if decide (n ∈ names) then Some c else column df n.
Proof.
  revert df. induction names as [| m names IH]; intros df; simpl.
  - destruct (decide (n ∈ [])) as [Hin | _]; [| reflexivity].
    now apply elem_of_nil in Hin.
  - rewrite IH.
    destruct (decide (n ∈ names)) as [Hin | Hout].
    + destruct (decide (n ∈ m :: names)) as [_ | Hno]; [reflexivity |].
      elim Hno. now apply list_elem_of_further.
    + destruct (decide (n = m)) as [-> | Hne].
      * rewrite column_set_column_eq.
        destruct (decide (m ∈ m :: names)) as [_ | Hno]; [reflexivity |].
        elim Hno. apply list_elem_of_here.
      * rewrite column_set_column_ne by exact Hne.
        destruct (decide (n ∈ m :: names)) as [Hin | _]; [| reflexivity].
        apply elem_of_cons in Hin. destruct Hin as [-> | Hin]; [now elim Hne | now elim Hout].
Qed.

(** Selecting columns that all exist gives them in the order asked for. *)
Lemma select_present df (names : list string) :
  (forall n, n ∈ names -> is_Some (column df n)) ->
  exists r, select df names = inr r /\
            columns r = names /\
            Forall (fun nc => column df (fst nc) = Some (snd nc)) r.
Proof.
  induction names as [| n names IH]; intros Hall; simpl.
  - exists []. repeat split. constructor.
  - destruct (Hall n) as [c Hc]; [apply list_elem_of_here |].
    destruct IH as (r & Hr & Hcols & Hcells).
    { intros k Hk. apply Hall. now apply list_elem_of_further. }
    rewrite Hc, Hr. exists ((n, c) :: r). split; [reflexivity |].
    split; [simpl; now rewrite Hcols |].
    constructor; [exact Hc | exact Hcells].
Qed.

End Frames.

(** ** The encoder *)

Section Encoder.

Variable float_repr : pyfloat -> string.

Ltac field_cases :=
  repeat match goal with
    | |- context [lift ?r] =>
        first [ rewrite bind_lift_inr
              | rewrite bind_lift_inl
              | destruct r as [? | ?] eqn:? ]
    end.

Lemma normalize_industry_outcome (industry_raw : string) :
  exists out industry, normalize_industry industry_raw = (out, inr industry).
Proof.
  unfold normalize_industry.
  destruct (String.eqb industry_raw "Technology"); eexists _, _; reflexivity.
Qed.

(** What the first part of the encoder yields when it returns: the
    twenty canonical columns, the first of them [np.log1p] of the amount
    as it was read. *)
Lemma synthesize_features_returns (data : gmap string pyval) out (df0 : Features) :
  synthesize_features float_repr data = (out, inr df0) ->
  columns df0 = canonical_columns /\
  exists amount, float_field data "amount" = inr amount /\
                 column df0 "amount_log" = Some (CFloat (np_log1p amount)).
Proof.
  unfold synthesize_features. intros H.
  destruct (float_field data "amount") as [e | amount]; [discriminate |].
  revert H. field_cases; try discriminate.
  destruct (normalize_industry_outcome
              (py_str float_repr (get data "industry" (PyStr "Other"))))
    as (o & industry & ->).
  simpl. intros [= _ <-]. split; [reflexivity |].
  exists amount. split; reflexivity.
Qed.

(** The alignment step on a non-empty list of expected names. *)
Lemma align_features_aligned (self : RecoveryPredictor) (df0 : Features) :
  feature_names self <> [] ->
  exists df : Features,
    align_features self df0 = ([], inr df) /\
    columns df = feature_names self /\
    Forall (fun nc => snd nc = default (CInt 0) (column df0 (fst nc))) df.
Proof.
  intros Hne.
  set (missing := (list_to_set (feature_names self) ∖ list_to_set (columns df0) : gset string)).
  set (filled := fold_left (fun df feat => set_column df feat (CInt 0))
                           (elements missing) df0).
  assert (Hfilled : forall n, n ∈ feature_names self ->
            column filled n = Some (default (CInt 0) (column df0 n))).
  { intros n Hn. unfold filled. rewrite column_fill.
    destruct (decide (n ∈ elements missing)) as [Hin | Hout].
    - apply elem_of_elements, elem_of_difference in Hin. destruct Hin as [_ Hnot].
      rewrite elem_of_list_to_set in Hnot. apply column_None in Hnot.
      now rewrite Hnot.
    - destruct (column df0 n) as [c |] eqn:Hc; [reflexivity |].
      elim Hout. apply elem_of_elements, elem_of_difference.
      rewrite !elem_of_list_to_set. split; [exact Hn |]. now apply column_None. }
  destruct (select_present filled (feature_names self)) as (df & Hsel & Hcols & Hcells).
  { intros n Hn. rewrite (Hfilled n Hn). eauto. }
  exists df. split; [| split; [exact Hcols |]].
  - unfold align_features. destruct (feature_names self) as [| n ns] eqn:E;
      [now elim Hne |]. fold missing. fold filled. now rewrite Hsel.
  - assert (Hin : Forall (fun nc => fst nc ∈ feature_names self) df).
    { rewrite <- Hcols. unfold columns. apply Forall_forall. intros nc Hnc.
      now apply list_elem_of_In, in_map, list_elem_of_In. }
    rewrite Forall_forall in Hin, Hcells. apply Forall_forall. intros nc Hnc.
    specialize (Hin nc Hnc). specialize (Hcells nc Hnc).
    rewrite (Hfilled _ Hin) in Hcells. congruence.
Qed.

(** What [prepare_features] returns is what its two parts return. *)
Lemma prepare_features_returns (self : RecoveryPredictor)
    (data : gmap string pyval) (out : list line) (df : Features) :
  prepare_features float_repr self data = (out, inr df) ->
  exists out0 df0,
    synthesize_features float_repr data = (out0, inr df0) /\
    outcome (align_features self df0) = inr df.
Proof.
  intros H. assert (Ho : outcome (prepare_features float_repr self data) = inr df)
    by now rewrite H.
  unfold prepare_features in Ho.
  apply outcome_bind_inr in Ho. destruct Ho as (df0 & Hsyn & Ho).
  apply outcome_bind_inr in Ho. destruct Ho as (df' & Halign & Ho).
  rewrite bind_print in Ho. simpl in Ho. injection Ho as <-.
  exists (stdout (synthesize_features float_repr data)), df0.
  split; [| exact Halign].
  rewrite <- Hsyn. apply surjective_run.
Qed.

(** C1.  When the predictor holds a list of expected feature names, the
    frame the encoder returns has exactly the columns of that list, in
    that order: each cell is the synthesized one of that name, or the
    integer 0 where nothing of that name was synthesized; what was
    synthesized under another name is gone.  The encoder returns whenever
    its first part does. *)
Theorem prepare_features_aligned (self : RecoveryPredictor)
    (data : gmap string pyval) (out0 : list line) (df0 : Features) :
  feature_names self <> [] ->
  synthesize_features float_repr data = (out0, inr df0) ->
  exists df : Features,
    prepare_features float_repr self data
      = ((out0 ++ [LogFeaturesPrepared (length (feature_names self))])%list, inr df) /\
    columns df = feature_names self /\
    Forall (fun nc => snd nc = default (CInt 0) (column df0 (fst nc))) df.
Proof.
  intros Hne Hsyn.
  destruct (align_features_aligned self df0 Hne) as (df & Halign & Hcols & Hcells).
  exists df. split; [| split; assumption].
  unfold prepare_features. rewrite (bind_returns _ _ _ _ Hsyn), Halign.
  simpl. do 4 f_equal.
  rewrite <- Hcols. unfold columns. now rewrite length_map.
Qed.

Lemma column_Some_In {F} (df : DataFrame F) (n : string) (c : cell F) :
  column df n = Some c -> (n, c) ∈ df.
Proof.
  induction df as [| [m c'] df IH]; simpl; [discriminate |].
  destruct (String.eqb_spec m n) as [-> | Hne].
  - intros [= ->]. apply list_elem_of_here.
  - intros H. apply list_elem_of_further. now apply IH.
Qed.

(** C6, as the code has it.  In every frame the encoder returns, the
    column [amount_log] (there whenever no list of expected names is held
    or the list names it) is [np.log1p] of the amount exactly as it was
    read: the logarithm of [1 + amount] for an amount above -1, and for
    an amount of -1 or below the value [np.log1p] gives outside its
    domain, minus infinity or NaN.  No amount is turned away for its sign
    and none is replaced by 0. *)
Theorem amount_log_of_raw_amount (self : RecoveryPredictor)
    (data : gmap string pyval) (out : list line) (df : Features) :
  prepare_features float_repr self data = (out, inr df) ->
  exists amount : pyfloat,
    float_field data "amount" = inr amount /\
    (forall c, column df "amount_log" = Some c -> c = CFloat (np_log1p amount)) /\
    (feature_names self = [] \/ "amount_log" ∈ feature_names self ->
     column df "amount_log" = Some (CFloat (np_log1p amount))) /\
    (forall q, amount = Fin q -> (-1 < q)%Q -> np_log1p amount = NpLog1p q) /\
    (forall q, amount = Fin q -> (q <= -1)%Q ->
       np_log1p amount = NpVal (Inf true) \/ np_log1p amount = NpVal NaN).
Proof.
  intros H. destruct (prepare_features_returns _ _ _ _ H) as (out0 & df0 & Hsyn & Halign).
  destruct (synthesize_features_returns _ _ _ Hsyn) as (Hcols0 & amount & Hamount & Hlog).
  exists amount. split; [exact Hamount |].
  assert (Hcell : forall c, column df "amount_log" = Some c -> c = CFloat (np_log1p amount)).
  { intros c Hc. destruct (feature_names self) as [| n ns] eqn:E.
    - unfold align_features in Halign. rewrite E in Halign.
      injection Halign as <-. congruence.
    - destruct (align_features_aligned self df0) as (df' & Hal & _ & Hcells);
        [rewrite E; discriminate |].
      rewrite Hal in Halign. injection Halign as ->.
      rewrite Forall_forall in Hcells.
      specialize (Hcells _ (column_Some_In _ _ _ Hc)). simpl in Hcells.
      now rewrite Hlog in Hcells. }
  split; [exact Hcell |]. split; [| split].
  - intros Hin.
    destruct (column df "amount_log") as [c |] eqn:Hc; [now rewrite (Hcell c) |].
    exfalso. destruct (feature_names self) as [| n ns] eqn:E.
    + unfold align_features in Halign. rewrite E in Halign.
      injection Halign as <-. congruence.
    + destruct Hin as [Hin | Hin]; [discriminate |].
      destruct (align_features_aligned self df0) as (df' & Hal & Hcols & _);
        [rewrite E; discriminate |].
      rewrite Hal in Halign. injection Halign as ->.
      apply column_None in Hc. rewrite Hcols, E in Hc. contradiction.
  - intros q -> Hq. unfold np_log1p.
    assert (E : Qltb (-1) q = true) by now apply Qltb_true.
    now rewrite E.
  - intros q -> Hq. unfold np_log1p.
    assert (E : Qltb (-1) q = false) by now apply Qltb_false.
    rewrite E. destruct (Qeq_bool q (-1)); [now left | now right].
Qed.

(** C8.  Two records that differ only in that one has the industry
    ["Technology"] and the other ["Tech"] are encoded to the same frame,
    the industry indicators among its columns; the folding turns
    ["Technology"] into ["Tech"] and hands every other name on as it is. *)
Theorem technology_encodes_as_tech (self : RecoveryPredictor) (data : gmap string pyval) :
  outcome (prepare_features float_repr self (<["industry" := PyStr "Technology"]> data))
  = outcome (prepare_features float_repr self (<["industry" := PyStr "Tech"]> data)) /\
  normalize_industry "Technology" = ([LogIndustry "Technology" "Tech"], inr "Tech") /\
  (forall industry_raw : string,
     industry_raw <> "Technology" -> normalize_industry industry_raw = ret industry_raw).
Proof.
  split; [| split].
  - assert (Hsyn :
      outcome (synthesize_features float_repr (<["industry" := PyStr "Technology"]> data))
      = outcome (synthesize_features float_repr (<["industry" := PyStr "Tech"]> data))).
    { unfold synthesize_features, float_field, int_field, get.
      rewrite !lookup_insert. repeat (case_decide; [discriminate |]).
      repeat (case_decide; [| congruence]).
      field_cases; try reflexivity. }
    unfold prepare_features. rewrite !outcome_bind, Hsyn. reflexivity.
  - reflexivity.
  - intros industry_raw Hne. unfold normalize_industry.
    apply String.eqb_neq in Hne. now rewrite Hne.
Qed.

End Encoder.

Lemma prepare_features_aligned_witness :
  exists out df,
    prepare_features sample_repr predictor_three_columns record_T1 = (out, inr df) /\
    df = [("industry_Tech", CInt 1); ("loyalty_tier", CInt 0);
          ("amount_log", CFloat (NpLog1p (inject_Z 150000)))].
Proof.
  destruct (synthesize_features sample_repr record_T1) as [out0 [e | df0]] eqn:Hsyn;
    [vm_compute in Hsyn; discriminate |].
  destruct (prepare_features_aligned sample_repr predictor_three_columns
              record_T1 out0 df0) as (df & Hrun & _ & _);
    [discriminate | exact Hsyn |].
  exists (out0 ++ [LogFeaturesPrepared 3])%list, df.
  split; [exact Hrun |].
  assert (Hval : outcome (prepare_features sample_repr predictor_three_columns record_T1)
                 = inr df) by now rewrite Hrun.
  vm_compute in Hval. now injection Hval as <-.
Defined.

Lemma amount_log_of_raw_amount_witness :
  exists out df,
    prepare_features sample_repr predictor_canonical record_T1 = (out, inr df) /\
    column df "amount_log" = Some (CFloat (NpLog1p (inject_Z 150000))).
Proof.
  destruct (prepare_features sample_repr predictor_canonical record_T1)
    as [out [e | df]] eqn:Hrun; [vm_compute in Hrun; discriminate |].
  exists out, df. split; [reflexivity |].
  destruct (amount_log_of_raw_amount sample_repr predictor_canonical record_T1 out df Hrun)
    as (amount & Hamount & _ & Hthere & _).
  assert (E : amount = Fin (inject_Z 150000)).
  { assert (H : float_field record_T1 "amount" = inr (Fin (inject_Z 150000)))
      by reflexivity.
    congruence. }
  rewrite Hthere, E; [reflexivity |].
  right. vm_compute. apply list_elem_of_here.
Defined.

(** C6, as the specification words it, fails on a record with the amount -5: the
    encoder returns a frame, so the record is not turned away, and its
    [amount_log] is the NaN that [np.log1p] yields outside its domain,
    not the value for an amount of 0. *)
Lemma negative_amount_reaches_log1p :
  float_field record_credit "amount" = inr (Fin (inject_Z (-5))) /\
  (exists out df,
     prepare_features sample_repr predictor_canonical record_credit = (out, inr df) /\
     column df "amount_log" = Some (CFloat (np_log1p (Fin (inject_Z (-5))))) /\
     column df "amount_log" = Some (CFloat (NpVal NaN)) /\
     column df "amount_log" <> Some (CFloat (np_log1p (Fin 0)))).
Proof.
  split; [reflexivity |].
  destruct (prepare_features sample_repr predictor_canonical record_credit)
    as [out [e | df]] eqn:Hrun; [vm_compute in Hrun; discriminate |].
  exists out, df. split; [reflexivity |].
  assert (Hval : outcome (prepare_features sample_repr predictor_canonical record_credit)
                 = inr df) by now rewrite Hrun.
  vm_compute in Hval. injection Hval as <-.
  split; [reflexivity |]. split; [reflexivity |]. vm_compute. discriminate.
Qed.

(** ** The batch endpoint *)

Section Batch.

Import Main.

Variable float_repr : pyfloat -> string.
Variable now : string.

Local Abbreviation row_outcome predictor row :=
  (outcome (process_row float_repr now predictor row)).

(** The loop returns the results of all rows, in order, when every row
    yields one. *)
Lemma process_rows_complete (predictor : RecoveryPredictor)
    (rows : list (gmap string pyval)) (accs done : list AnalyzedAccount) :
  Forall2 (fun row acc => row_outcome predictor row = inr acc) rows accs ->
  outcome (process_rows float_repr now predictor rows done) = inr (done ++ accs)%list.
Proof.
  intros H. revert done. induction H as [| row acc rows accs Hrow _ IH]; intros done; simpl.
  - now rewrite app_nil_r.
  - rewrite outcome_bind, Hrow, IH, <- app_assoc. reflexivity.
Qed.

(** The loop stops at the first row that raises. *)
Lemma process_rows_aborts (predictor : RecoveryPredictor)
    (rows1 rows2 : list (gmap string pyval)) (row : gmap string pyval)
    (e : exn) (done : list AnalyzedAccount) :
  Forall (fun r => exists acc, row_outcome predictor r = inr acc) rows1 ->
  row_outcome predictor row = inl e ->
  outcome (process_rows float_repr now predictor (rows1 ++ row :: rows2) done) = inl e.
Proof.
  intros H Hrow. revert done.
  induction H as [| r rows1 [acc Hr] _ IH]; intros done; simpl.
  - now rewrite outcome_bind, Hrow.
  - rewrite outcome_bind, Hr. apply IH.
Qed.

Lemma required_cols_present (cols : list string) :
  (forall c, c ∈ required_cols -> c ∈ cols) ->
  filter (fun col => col ∉ cols) required_cols = [].
Proof.
  intros Hall. destruct (filter _ required_cols) as [| c l] eqn:E; [reflexivity |].
  assert (Hc : c ∈ filter (fun col => col ∉ cols) required_cols)
    by (rewrite E; apply list_elem_of_here).
  apply list_elem_of_filter in Hc. destruct Hc as [Hout Hin].
  elim Hout. now apply Hall.
Qed.

(** C5, as the code has it.  With the required columns present, the
    batch is all or nothing: when every row yields a result the response
    carries all of them, in the order of the rows; the first row whose
    processing raises ends the request with status 500, and no result of
    any row is reported. *)
Theorem analyze_csv_all_or_nothing (predictor : RecoveryPredictor)
    (cols : list string) (rows : list (gmap string pyval)) :
  (forall c, c ∈ required_cols -> c ∈ cols) ->
  (forall accs : list AnalyzedAccount,
     Forall2 (fun row acc => row_outcome predictor row = inr acc) rows accs ->
     exists body,
       snd (analyze_csv float_repr now (Some predictor) (Table cols rows)) = OK body /\
       predictions body = accs /\
       total_accounts body = length rows) /\
  (forall rows1 row rows2 e,
     rows = (rows1 ++ row :: rows2)%list ->
     Forall (fun r => exists acc, row_outcome predictor r = inr acc) rows1 ->
     row_outcome predictor row = inl e ->
     snd (analyze_csv float_repr now (Some predictor) (Table cols rows))
     = HTTPException 500 (AnalysisFailed (Raised e))).
Proof.
  intros Hcols. unfold analyze_csv. rewrite (required_cols_present cols Hcols).
  split.
  - intros accs Hall.
    pose proof (process_rows_complete predictor rows accs [] Hall) as Hrun.
    destruct (process_rows float_repr now predictor rows []) as [out [e | preds]];
      unfold outcome in Hrun; simpl in Hrun; [discriminate |].
    injection Hrun as ->. eexists. split; [reflexivity |].
    split; [reflexivity |]. simpl. symmetry. now apply Forall2_length in Hall.
  - intros rows1 row rows2 e -> Hok Hrow.
    pose proof (process_rows_aborts predictor rows1 rows2 row e [] Hok Hrow) as Hrun.
    destruct (process_rows float_repr now predictor (rows1 ++ row :: rows2) [])
      as [out [e' | preds]]; unfold outcome in Hrun; simpl in Hrun; [| discriminate].
    now injection Hrun as ->.
Qed.

End Batch.

Lemma analyze_csv_all_or_nothing_witness :
  (exists body,
     snd (Main.analyze_csv sample_repr sample_now (Some predictor_canonical)
            (Main.Table Main.required_cols [row_1; row_3])) = Main.OK body /\
     Main.total_accounts body = 2%nat) /\
  snd (Main.analyze_csv sample_repr sample_now (Some predictor_canonical)
         (Main.Table Main.required_cols [row_1; row_2; row_3]))
  = Main.HTTPException 500 (Main.AnalysisFailed (Main.Raised ValueError)).
Proof.
  split.
  - destruct (analyze_csv_all_or_nothing sample_repr sample_now predictor_canonical
                Main.required_cols [row_1; row_3]) as [Hall _];
      [intros c Hc; exact Hc |].
    destruct (Main.process_row sample_repr sample_now predictor_canonical row_1)
      as [o1 [e1 | acc1]] eqn:H1; [vm_compute in H1; discriminate |].
    destruct (Main.process_row sample_repr sample_now predictor_canonical row_3)
      as [o3 [e3 | acc3]] eqn:H3; [vm_compute in H3; discriminate |].
    destruct (Hall [acc1; acc3]) as (body & Hbody & _ & Htotal).
    { repeat constructor; [now rewrite H1 | now rewrite H3]. }
    exists body. split; [exact Hbody | exact Htotal].
  - destruct (analyze_csv_all_or_nothing sample_repr sample_now predictor_canonical
                Main.required_cols [row_1; row_2; row_3]) as [_ Hstop];
      [intros c Hc; exact Hc |].
    apply (Hstop [row_1] row_2 [row_3] ValueError); [reflexivity | | reflexivity].
    repeat constructor.
    destruct (Main.process_row sample_repr sample_now predictor_canonical row_1)
      as [o1 [e1 | acc1]] eqn:H1; [vm_compute in H1; discriminate |].
    now exists acc1.
Defined.

(** C5, as the specification words it, fails on a batch of three rows whose second
    row holds text in [amount]: the first and the third row yield a
    result on their own, yet the request ends with status 500 and reports
    no row. *)
Lemma analyze_csv_aborts_on_one_row :
  let run := Main.process_row sample_repr sample_now predictor_canonical in
  (exists acc, outcome (run row_1) = inr acc) /\
  outcome (run row_2) = inl ValueError /\
  (exists acc, outcome (run row_3) = inr acc) /\
  snd (Main.analyze_csv sample_repr sample_now (Some predictor_canonical)
         (Main.Table Main.required_cols [row_1; row_2; row_3]))
  = Main.HTTPException 500 (Main.AnalysisFailed (Main.Raised ValueError)) /\
  ~ (exists body,
       snd (Main.analyze_csv sample_repr sample_now (Some predictor_canonical)
              (Main.Table Main.required_cols [row_1; row_2; row_3])) = Main.OK body).
Proof.
  intros run.
  assert (Hresp :
    snd (Main.analyze_csv sample_repr sample_now (Some predictor_canonical)
           (Main.Table Main.required_cols [row_1; row_2; row_3]))
    = Main.HTTPException 500 (Main.AnalysisFailed (Main.Raised ValueError)))
    by (vm_compute; reflexivity).
  split.
  { destruct (outcome (run row_1)) as [e | acc] eqn:H;
      [vm_compute in H; discriminate | now exists acc]. }
  split; [vm_compute; reflexivity |]. split.
  { destruct (outcome (run row_3)) as [e | acc] eqn:H;
      [vm_compute in H; discriminate | now exists acc]. }
  split; [exact Hresp |].
  intros [body Hbody]. rewrite Hresp in Hbody. discriminate.
Qed.

(** ** The explanation engine *)

Section Ranking.

Import Explainer.

Lemma insert_desc_Forall (P : Factor -> Prop) (x : Factor) (l : list Factor) :
  P x -> Forall P l -> Forall P (insert_desc x l).
Proof.
  intros Hx Hl. induction Hl as [| y l Hy Hl IH]; simpl.
  - now repeat constructor.
  - destruct (Qle_bool _ _); repeat constructor; assumption.
Qed.



Lemma sort_desc_Forall (P : Factor -> Prop) (l : list Factor) :
  Forall P l -> Forall P (sort_desc l).
Proof.
  induction 1 as [| x l Hx _ IH]; simpl; [constructor | now apply insert_desc_Forall].
Qed.







End Ranking.

(** * Further properties *)

(** ** The encoder on its own *)

Ltac coerce_cases :=
  repeat match goal with
    | |- context [lift ?r] =>
        first [ rewrite bind_lift_inr
              | rewrite bind_lift_inl
              | destruct r as [? | ?] eqn:? ]
    end.

Section EncoderShape.

Variable float_repr : pyfloat -> string.

(** The frame of the first part, cell by cell. *)
Lemma synthesize_features_frame (data : gmap string pyval) out (df0 : Features) :
  synthesize_features float_repr data = (out, inr df0) ->
  exists amount days history change volume ratio diversity attempts tenure,
    float_field data "amount" = inr amount /\
    int_field data "days_overdue" = inr days /\
    float_field data "payment_history_score" = inr history /\
    float_field data "shipment_volume_change_30d" = inr change /\
    int_field data "shipment_volume_30d" = inr volume /\
    float_field data "express_ratio" = inr ratio /\
    int_field data "destination_diversity" = inr diversity /\
    int_field data "contact_attempts" = inr attempts /\
    int_field data "customer_tenure_months" = inr tenure /\
    let industry := folded_industry float_repr data in
    let region := py_str float_repr (get data "region" (PyStr "Other")) in
    df0 = [
      ("amount_log", CFloat (np_log1p amount));
      ("days_overdue", CInt days);
      ("payment_history_score", CFloat (NpVal history));
      ("shipment_volume_change_30d", CFloat (NpVal change));
      ("shipment_volume_30d", CInt volume);
      ("express_ratio", CFloat (NpVal ratio));
      ("destination_diversity", CInt diversity);
      ("contact_attempts", CInt attempts);
      ("customer_tenure_months", CInt tenure);
      ("email_opened", CInt (boolean_feature (get data "email_opened" (PyInt 0))));
      ("dispute_flag", CInt (boolean_feature (get data "dispute_flag" (PyInt 0))));
      ("industry_Construction", flag (String.eqb industry "Construction"));
      ("industry_Medical", flag (String.eqb industry "Medical"));
      ("industry_Retail", flag (String.eqb industry "Retail"));
      ("industry_Tech", flag (String.eqb industry "Tech"));
      ("industry_Textile", flag (String.eqb industry "Textile"));
      ("region_East", flag (String.eqb region "East"));
      ("region_North", flag (String.eqb region "North"));
      ("region_South", flag (String.eqb region "South"));
      ("region_West", flag (String.eqb region "West"))
    ].
Proof.
  unfold synthesize_features. intros H. revert H.
  coerce_cases; try discriminate.
  unfold normalize_industry, folded_industry.
  destruct (String.eqb (py_str float_repr (get data "industry" (PyStr "Other")))
                       "Technology");
    simpl; intros [= _ <-]; do 9 eexists; repeat (split; [reflexivity |]); reflexivity.
Qed.

(** The cells of a returned frame come from the first part: each is the
    synthesized cell of its name, or 0. *)
Lemma prepare_features_cells (self : RecoveryPredictor) (data : gmap string pyval)
    out (df : Features) :
  prepare_features float_repr self data = (out, inr df) ->
  exists out0 df0,
    synthesize_features float_repr data = (out0, inr df0) /\
    (feature_names self = [] -> df = df0) /\
    Forall (fun nc => snd nc = default (CInt 0) (column df0 (fst nc))) df.
Proof.
  intros H. destruct (prepare_features_returns _ _ _ _ _ H) as (out0 & df0 & Hsyn & Halign).
  exists out0, df0. split; [exact Hsyn |].
  destruct (feature_names self) as [| n ns] eqn:E.
  - unfold align_features in Halign. rewrite E in Halign. injection Halign as <-.
    split; [reflexivity |].
    destruct (synthesize_features_frame _ _ _ Hsyn) as (a & d & h & c & v & r & dv & at_ & t & _ & _ & _ & _ & _ & _ & _ & _ & _ & ->).
    repeat constructor.
  - split; [discriminate |].
    destruct (align_features_aligned self df0) as (df' & Hal & _ & Hcells);
      [rewrite E; discriminate |].
    rewrite Hal in Halign. now injection Halign as ->.
Qed.

(** Without a list of expected names the encoder returns the twenty
    canonical columns, in the order of the feature dictionary. *)
Theorem prepare_features_canonical (self : RecoveryPredictor)
    (data : gmap string pyval) out (df : Features) :
  feature_names self = [] ->
  prepare_features float_repr self data = (out, inr df) ->
  columns df = canonical_columns /\
  length df = 20%nat /\
  outcome (synthesize_features float_repr data) = inr df.
Proof.
  intros Hnone H.
  destruct (prepare_features_cells _ _ _ _ H) as (out0 & df0 & Hsyn & Hsame & _).
  rewrite (Hsame Hnone).
  destruct (synthesize_features_returns _ _ _ _ Hsyn) as (Hcols & _).
  split; [exact Hcols |]. split.
  - rewrite <- (length_map fst). fold (columns df0). now rewrite Hcols.
  - now rewrite Hsyn.
Qed.

Lemma in_flag_columns (n : string) :
  n ∈ flag_columns ->
  n = "email_opened" \/ n = "dispute_flag" \/
  n = "industry_Construction" \/ n = "industry_Medical" \/ n = "industry_Retail" \/
  n = "industry_Tech" \/ n = "industry_Textile" \/
  n = "region_East" \/ n = "region_North" \/ n = "region_South" \/ n = "region_West".
Proof.
  intros H. apply list_elem_of_In in H. simpl in H.
  repeat (destruct H as [<- | H]; [tauto |]). contradiction.
Qed.

Lemma boolean_feature_binary (v : pyval) :
  boolean_feature v = 0 \/ boolean_feature v = 1.
Proof.
  unfold boolean_feature.
  destruct v; match goal with |- context [Z.b2z ?b] => destruct b end; auto.
Qed.

(** Every flag column of a returned frame holds the integer 0 or 1, and
    every column outside the canonical twenty holds the integer 0. *)
Theorem prepare_features_flags (self : RecoveryPredictor)
    (data : gmap string pyval) out (df : Features) :
  prepare_features float_repr self data = (out, inr df) ->
  Forall (fun nc =>
            (fst nc ∈ flag_columns -> snd nc = CInt 0 \/ snd nc = CInt 1) /\
            (fst nc ∉ canonical_columns -> snd nc = CInt 0)) df.
Proof.
  intros H.
  destruct (prepare_features_cells _ _ _ _ H) as (out0 & df0 & Hsyn & _ & Hcells).
  destruct (synthesize_features_frame _ _ _ Hsyn)
    as (a & d & h & c & v & r & dv & at_ & t & _ & _ & _ & _ & _ & _ & _ & _ & _ & Hdf0).
  cbv zeta in Hdf0.
  eapply Forall_impl; [exact Hcells |]. intros [n x] Hx. simpl in *. split.
  - intros Hn. apply in_flag_columns in Hn. subst df0.
    destruct (boolean_feature_binary (get data "email_opened" (PyInt 0))) as [E | E];
    destruct (boolean_feature_binary (get data "dispute_flag" (PyInt 0))) as [D | D];
    repeat (destruct Hn as [-> | Hn]);
      try subst n; simpl in Hx; rewrite Hx, ?E, ?D;
      unfold flag;
      try match goal with |- context [Z.b2z ?b] => destruct b end; auto.
  - intros Hn. rewrite Hx.
    destruct (column df0 n) as [y |] eqn:Hy; [| reflexivity].
    exfalso. apply Hn. apply column_Some_elem in Hy.
    destruct (synthesize_features_returns _ _ _ _ Hsyn) as (Hcols & _).
    now rewrite <- Hcols.
Qed.

Lemma flag_one (b : bool) : flag b = CInt 1 -> b = true.
Proof. destruct b; [reflexivity | discriminate]. Qed.

(** An indicator column of a returned frame holds 1 only for the
    category the record has: the folded industry name, the region as it
    is.  So at most one indicator of each group is 1, and a category
    outside the group sets none. *)
Theorem one_hot_exclusive (self : RecoveryPredictor)
    (data : gmap string pyval) out (df : Features) :
  prepare_features float_repr self data = (out, inr df) ->
  (forall c : string, c ∈ industries ->
     column df ("industry_" ++ c) = Some (CInt 1) ->
     folded_industry float_repr data = c) /\
  (forall c : string, c ∈ regions ->
     column df ("region_" ++ c) = Some (CInt 1) ->
     py_str float_repr (get data "region" (PyStr "Other")) = c).
Proof.
  intros H.
  destruct (prepare_features_cells _ _ _ _ H) as (out0 & df0 & Hsyn & _ & Hcells).
  destruct (synthesize_features_frame _ _ _ Hsyn)
    as (a & d & h & ch & v & r & dv & at_ & t & _ & _ & _ & _ & _ & _ & _ & _ & _ & Hdf0).
  cbv zeta in Hdf0. rewrite Forall_forall in Hcells.
  split; intros c Hc Hone; apply column_Some_In in Hone;
    specialize (Hcells _ Hone); simpl in Hcells; subst df0;
    apply list_elem_of_In in Hc; simpl in Hc;
    repeat (destruct Hc as [<- | Hc]; [simpl in Hcells; symmetry in Hcells;
                                        apply flag_one in Hcells;
                                        now apply String.eqb_eq in Hcells |]);
    contradiction.
Qed.

Lemma float_like_coerces (v : pyval) :
  float_like v -> exists f, to_float (py_or v (PyInt 0)) = inr f.
Proof.
  unfold py_or. destruct v as [| b | z | f | s]; simpl.
  - eauto.
  - destruct b; simpl; eauto.
  - destruct (z =? 0); simpl; eauto.
  - destruct f as [q | n |]; simpl; try destruct (Qeq_bool q 0); simpl; eauto.
  - intros [-> | [f Hf]]; [simpl; eauto |].
    destruct (String.eqb s ""); simpl; [eauto |]. rewrite Hf. eauto.
Qed.

Lemma int_like_coerces (v : pyval) :
  int_like v -> exists z, to_int (py_or v (PyInt 0)) = inr z.
Proof.
  unfold py_or. destruct v as [| b | z | f | s]; simpl.
  - eauto.
  - destruct b; simpl; eauto.
  - destruct (z =? 0); simpl; eauto.
  - destruct f as [q | n |]; [| contradiction ..]. intros _.
    destruct (Qeq_bool q 0); simpl; eauto.
  - intros [-> | [z Hz]]; [simpl; eauto |].
    destruct (String.eqb s ""); simpl; [eauto |]. rewrite Hz. eauto.
Qed.

Lemma synthesize_features_total (data : gmap string pyval) :
  (forall k, k ∈ float_keys -> float_like (get data k (PyInt 0))) ->
  (forall k, k ∈ int_keys -> int_like (get data k (PyInt 0))) ->
  exists out0 df0, synthesize_features float_repr data = (out0, inr df0).
Proof.
  intros Hf Hi.
  assert (F : forall k, k ∈ float_keys -> exists f, float_field data k = inr f).
  { intros k Hk. apply float_like_coerces, Hf, Hk. }
  assert (I : forall k, k ∈ int_keys -> exists z, int_field data k = inr z).
  { intros k Hk. apply int_like_coerces, Hi, Hk. }
  unfold synthesize_features.
  destruct (F "amount") as [a ->]; [apply list_elem_of_In; simpl; tauto |].
  destruct (I "days_overdue") as [d ->]; [apply list_elem_of_In; simpl; tauto |].
  destruct (F "payment_history_score") as [h ->]; [apply list_elem_of_In; simpl; tauto |].
  destruct (F "shipment_volume_change_30d") as [c ->];
    [apply list_elem_of_In; simpl; tauto |].
  destruct (I "shipment_volume_30d") as [v ->]; [apply list_elem_of_In; simpl; tauto |].
  destruct (F "express_ratio") as [r ->]; [apply list_elem_of_In; simpl; tauto |].
  destruct (I "destination_diversity") as [dv ->];
    [apply list_elem_of_In; simpl; tauto |].
  destruct (I "contact_attempts") as [at_ ->]; [apply list_elem_of_In; simpl; tauto |].
  destruct (I "customer_tenure_months") as [t ->];
    [apply list_elem_of_In; simpl; tauto |].
  rewrite !bind_lift_inr.
  destruct (normalize_industry_outcome
              (py_str float_repr (get data "industry" (PyStr "Other"))))
    as (o & industry & ->).
  simpl. eauto.
Qed.


Lemma absent_int_field (data : gmap string pyval) (k : string) :
  data !! k = None \/ data !! k = Some PyNone -> int_field data k = inr 0.
Proof. unfold int_field, get. now intros [-> | ->]. Qed.

Lemma absent_float_field (data : gmap string pyval) (k : string) :
  data !! k = None \/ data !! k = Some PyNone -> float_field data k = inr (Fin 0).
Proof. unfold float_field, get. now intros [-> | ->]. Qed.

(** A numeric field that is absent or [None] is encoded as zero: the
    integer 0, the float 0, and for the amount the logarithm of 1. *)
Theorem absent_fields_are_zero (self : RecoveryPredictor)
    (data : gmap string pyval) out (df : Features) :
  prepare_features float_repr self data = (out, inr df) ->
  forall k : string, data !! k = None \/ data !! k = Some PyNone ->
    (k ∈ int_keys -> forall x, column df k = Some x -> x = CInt 0) /\
    (k ∈ float_keys -> k <> "amount" ->
       forall x, column df k = Some x -> x = CFloat (NpVal (Fin 0))) /\
    (k = "amount" ->
       forall x, column df "amount_log" = Some x -> x = CFloat (NpLog1p 0)).
Proof.
  intros H k Habsent.
  destruct (prepare_features_cells _ _ _ _ H) as (out0 & df0 & Hsyn & _ & Hcells).
  destruct (synthesize_features_frame _ _ _ Hsyn)
    as (a & d & h & ch & v & r & dv & at_ & t
        & Ha & Hd & Hh & Hch & Hv & Hr & Hdv & Hat & Ht & Hdf0).
  cbv zeta in Hdf0. rewrite Forall_forall in Hcells.
  pose proof (absent_int_field data k Habsent) as Hi.
  pose proof (absent_float_field data k Habsent) as Hf.
  split; [| split].
  - intros Hk x Hx. apply column_Some_In in Hx. specialize (Hcells _ Hx).
    simpl in Hcells. subst df0 x.
    apply list_elem_of_In in Hk. simpl in Hk.
    repeat (destruct Hk as [<- | Hk]; [simpl; congruence |]). contradiction.
  - intros Hk Hne x Hx. apply column_Some_In in Hx. specialize (Hcells _ Hx).
    simpl in Hcells. subst df0 x.
    apply list_elem_of_In in Hk. simpl in Hk.
    destruct Hk as [<- | Hk]; [now elim Hne |].
    repeat (destruct Hk as [<- | Hk]; [simpl; congruence |]). contradiction.
  - intros -> x Hx. apply column_Some_In in Hx. specialize (Hcells _ Hx).
    simpl in Hcells. subst df0 x. simpl.
    assert (E : a = Fin 0) by congruence. now rewrite E.
Qed.

Lemma select_ext {F} (df df' : DataFrame F) (names : list string) :
  (forall n, n ∈ names -> column df n = column df' n) ->
  select df names = select df' names.
Proof.
  induction names as [| n names IH]; intros Hsame; simpl; [reflexivity |].
  rewrite (Hsame n) by apply list_elem_of_here.
  rewrite IH; [reflexivity |].
  intros k Hk. apply Hsame. now apply list_elem_of_further.
Qed.

(** The order in which the missing columns are added does not show in
    the result: any enumeration of the missing names, whatever its order
    and its repetitions, gives the frame [align_features] gives. *)
Theorem align_features_any_order (self : RecoveryPredictor) (df0 : Features)
    (order : list string) :
  feature_names self <> [] ->
  (forall n, n ∈ order <-> n ∈ feature_names self /\ n ∉ columns df0) ->
  align_features self df0 =
  lift (select (fold_left (fun df feat => set_column df feat (CInt 0)) order df0)
               (feature_names self)).
Proof.
  intros Hne Horder. unfold align_features.
  destruct (feature_names self) as [| n ns] eqn:E; [now elim Hne |].
  f_equal. apply select_ext. intros k Hk. rewrite !column_fill.
  destruct (decide (k ∈ order)) as [Hin | Hout];
    destruct (decide (k ∈ elements _)) as [Hin' | Hout']; try reflexivity; exfalso.
  - apply Hout'. apply Horder in Hin. destruct Hin as [H1 H2].
    apply elem_of_elements, elem_of_difference.
    rewrite !elem_of_list_to_set. now split.
  - apply Hout. apply Horder.
    apply elem_of_elements, elem_of_difference in Hin'.
    now rewrite !elem_of_list_to_set in Hin'.
Qed.

Lemma float_field_error (data : gmap string pyval) (k : string) (e : exn) :
  float_field data k = inl e -> e = ValueError.
Proof.
  unfold float_field, py_or.
  destruct (get data k (PyInt 0)) as [| b | z | f | s]; simpl.
  - discriminate.
  - destruct b; discriminate.
  - destruct (z =? 0); discriminate.
  - destruct f as [q | n |]; simpl; try destruct (Qeq_bool q 0); discriminate.
  - destruct (String.eqb s ""); simpl; [discriminate |].
    destruct (parse_float s); [discriminate | now intros [= <-]].
Qed.

Lemma int_field_error (data : gmap string pyval) (k : string) (e : exn) :
  int_field data k = inl e -> e = ValueError \/ e = OverflowError.
Proof.
  unfold int_field, py_or.
  destruct (get data k (PyInt 0)) as [| b | z | f | s]; simpl.
  - discriminate.
  - destruct b; discriminate.
  - destruct (z =? 0); discriminate.
  - destruct f as [q | n |]; simpl; try destruct (Qeq_bool q 0); simpl;
      try discriminate; intros [= <-]; auto.
  - destruct (String.eqb s ""); simpl; [discriminate |].
    destruct (parse_int s); [discriminate | intros [= <-]; auto].
Qed.

Lemma synthesize_features_error (data : gmap string pyval) (e : exn) :
  outcome (synthesize_features float_repr data) = inl e ->
  e = ValueError \/ e = OverflowError.
Proof.
  unfold synthesize_features. coerce_cases;
    try (rewrite outcome_run; intros [= <-];
         match goal with
         | H : float_field _ _ = inl _ |- _ => apply float_field_error in H; auto
         | H : int_field _ _ = inl _ |- _ => apply int_field_error in H; auto
         end).
  destruct (normalize_industry_outcome
              (py_str float_repr (get data "industry" (PyStr "Other"))))
    as (o & industry & ->).
  discriminate.
Qed.

Lemma align_features_returns (self : RecoveryPredictor) (df0 : Features) :
  exists df, align_features self df0 = ([], inr df).
Proof.
  destruct (feature_names self) as [| n ns] eqn:E.
  - unfold align_features. rewrite E. now exists df0.
  - destruct (align_features_aligned self df0) as (df & Hal & _);
      [rewrite E; discriminate | eauto].
Qed.

Lemma prepare_features_raises (self : RecoveryPredictor) (data : gmap string pyval)
    (e : exn) :
  outcome (prepare_features float_repr self data) = inl e <->
  outcome (synthesize_features float_repr data) = inl e.
Proof.
  unfold prepare_features. rewrite outcome_bind.
  destruct (outcome (synthesize_features float_repr data)) as [e' | df0];
    [reflexivity |].
  destruct (align_features_returns self df0) as [df ->].
  rewrite outcome_bind, outcome_run, bind_print, outcome_run.
  unfold ret. rewrite outcome_run. split; discriminate.
Qed.

(** When the encoder raises, it raises [ValueError] or [OverflowError],
    never a [KeyError], and it raises the same for every list of expected
    names: the failure comes from a field, not from the alignment. *)
Theorem prepare_features_failure (self self' : RecoveryPredictor)
    (data : gmap string pyval) (e : exn) :
  outcome (prepare_features float_repr self data) = inl e ->
  (e = ValueError \/ e = OverflowError) /\
  outcome (prepare_features float_repr self' data) = inl e.
Proof.
  intros H. apply prepare_features_raises in H. split.
  - exact (synthesize_features_error data e H).
  - now apply prepare_features_raises.
Qed.

(** A NaN under an integer key, as [pandas] leaves for an empty cell of
    the upload, is not read as zero: the encoder raises. *)
Theorem nan_integer_field_raises (self : RecoveryPredictor)
    (data : gmap string pyval) (k : string) :
  k ∈ int_keys -> data !! k = Some (PyFloat NaN) ->
  exists e, outcome (prepare_features float_repr self data) = inl e.
Proof.
  intros Hk Hnan.
  assert (Hfield : int_field data k = inl ValueError).
  { unfold int_field, get. now rewrite Hnan. }
  destruct (outcome (prepare_features float_repr self data)) as [e | df] eqn:Hrun;
    [eauto |].
  exfalso.
  destruct (prepare_features_cells self data
              (stdout (prepare_features float_repr self data)) df)
    as (out0 & df0 & Hsyn & _); [rewrite <- Hrun; apply surjective_run |].
  destruct (synthesize_features_frame _ _ _ Hsyn)
    as (a & d & h & ch & v & r & dv & at_ & t
        & Ha & Hd & Hh & Hch & Hv & Hr & Hdv & Hat & Ht & _).
  apply list_elem_of_In in Hk. simpl in Hk.
  repeat (destruct Hk as [<- | Hk]; [congruence |]). contradiction.
Qed.

End EncoderShape.

Ltac run_encoder self data out df Hrun :=
  destruct (prepare_features sample_repr self data) as [out [? | df]] eqn:Hrun;
    [vm_compute in Hrun; discriminate |].

Lemma prepare_features_canonical_witness :
  exists out df,
    prepare_features sample_repr predictor_without_model record_T1 = (out, inr df) /\
    columns df = canonical_columns.
Proof.
  run_encoder predictor_without_model record_T1 out df Hrun.
  exists out, df. split; [reflexivity |].
  destruct (prepare_features_canonical sample_repr predictor_without_model
              record_T1 out df eq_refl Hrun) as [Hcols _].
  exact Hcols.
Defined.

Lemma prepare_features_flags_witness :
  exists out df,
    prepare_features sample_repr predictor_three_columns record_T1 = (out, inr df) /\
    Forall (fun nc =>
              (fst nc ∈ flag_columns -> snd nc = CInt 0 \/ snd nc = CInt 1) /\
              (fst nc ∉ canonical_columns -> snd nc = CInt 0)) df.
Proof.
  run_encoder predictor_three_columns record_T1 out df Hrun.
  exists out, df. split; [reflexivity |].
  exact (prepare_features_flags sample_repr predictor_three_columns record_T1 out df Hrun).
Defined.

Lemma one_hot_exclusive_witness :
  exists out df,
    prepare_features sample_repr predictor_canonical record_T1 = (out, inr df) /\
    column df "industry_Tech" = Some (CInt 1) /\
    folded_industry sample_repr record_T1 = "Tech".
Proof.
  run_encoder predictor_canonical record_T1 out df Hrun.
  exists out, df. split; [reflexivity |].
  assert (Hval : outcome (prepare_features sample_repr predictor_canonical record_T1)
                 = inr df) by now rewrite Hrun.
  assert (Hone : column df ("industry_" ++ "Tech") = Some (CInt 1)).
  { vm_compute in Hval. injection Hval as <-. reflexivity. }
  split; [exact Hone |].
  destruct (one_hot_exclusive sample_repr predictor_canonical record_T1 out df Hrun)
    as [Hindustry _].
  apply Hindustry; [| exact Hone].
  apply list_elem_of_In. simpl. tauto.
Defined.


Lemma absent_fields_are_zero_witness :
  record_T1 !! "contact_attempts" = None /\
  exists out df,
    prepare_features sample_repr predictor_canonical record_T1 = (out, inr df) /\
    forall x, column df "contact_attempts" = Some x -> x = CInt 0.
Proof.
  assert (Habsent : record_T1 !! "contact_attempts" = None) by (vm_compute; reflexivity).
  split; [exact Habsent |].
  run_encoder predictor_canonical record_T1 out df Hrun.
  exists out, df. split; [reflexivity |].
  destruct (absent_fields_are_zero sample_repr predictor_canonical record_T1 out df
              Hrun "contact_attempts" (or_introl Habsent)) as [Hint _].
  apply Hint. apply list_elem_of_In. simpl. tauto.
Defined.

Lemma align_features_any_order_witness :
  align_features predictor_three_columns [("amount_log", CInt 7)] =
  lift (select (fold_left (fun df feat => set_column df feat (CInt 0))
                          ["loyalty_tier"; "industry_Tech"; "loyalty_tier"]
                          [("amount_log", CInt 7)])
               (feature_names predictor_three_columns)).
Proof.
  apply (align_features_any_order predictor_three_columns);
    [discriminate |].
  intros n. simpl. rewrite !elem_of_cons, !elem_of_nil. split.
  - intros [-> | [-> | [-> | []]]]; (split; [tauto |]);
      intros [H | []]; discriminate.
  - intros [[-> | [-> | [-> | []]]] Hnot]; try tauto; elim Hnot; now left.
Defined.

Lemma prepare_features_failure_witness :
  outcome (prepare_features sample_repr predictor_canonical row_2) = inl ValueError /\
  outcome (prepare_features sample_repr predictor_three_columns row_2) = inl ValueError.
Proof.
  assert (H : outcome (prepare_features sample_repr predictor_canonical row_2)
              = inl ValueError) by (vm_compute; reflexivity).
  split; [exact H |].
  destruct (prepare_features_failure sample_repr predictor_canonical
              predictor_three_columns row_2 ValueError H) as [_ Hother].
  exact Hother.
Defined.

Lemma nan_integer_field_raises_witness :
  exists e,
    outcome (prepare_features sample_repr predictor_canonical
               (<["days_overdue" := PyFloat NaN]> record_T1)) = inl e.
Proof.
  apply (nan_integer_field_raises sample_repr predictor_canonical
           (<["days_overdue" := PyFloat NaN]> record_T1) "days_overdue");
    [apply list_elem_of_In; simpl; tauto | reflexivity].
Defined.

(** ** The predictor beyond the fallback *)

Section PredictorShape.

Variable float_repr : pyfloat -> string.
Variable now : string.

Local Abbreviation account_of data :=
  (py_str float_repr (get data "account_id" (PyStr "Unknown"))).
Local Abbreviation company_of data :=
  (py_str float_repr (get data "company_name" (PyStr "Unknown Company"))).

(** Away from the sentinel, with the four raw fields read, the call is
    the [try] statement followed by the metrics. *)
Lemma predict_recovery_unfolds (self : RecoveryPredictor) (data : gmap string pyval)
    (a h s : pyfloat) (d : Z) :
  account_of data <> hero_id ->
  float_field data "amount" = inr a ->
  int_field data "days_overdue" = inr d ->
  float_field data "payment_history_score" = inr h ->
  float_field data "shipment_volume_change_30d" = inr s ->
  predict_recovery float_repr now self data =
  bind (print (LogAnalyzing (account_of data)))
       (fun _ =>
          bind (try_except (try_inference float_repr self data) (on_calculation_error h))
               (fun prob =>
                  derive_metrics now (account_of data) (company_of data) prob h s d)).
Proof.
  intros Hid Ha Hd Hh Hs. unfold predict_recovery.
  apply String.eqb_neq in Hid. rewrite Hid, Ha, Hd, Hh, Hs, !bind_lift_inr.
  reflexivity.
Qed.

Lemma try_inference_returns (self : RecoveryPredictor) (data : gmap string pyval)
    predict_proba out (X : Features) (p : pyfloat) :
  model self = Some predict_proba ->
  prepare_features float_repr self data = (out, inr X) ->
  predict_proba X = inr p ->
  try_inference float_repr self data = ((out ++ [LogPrediction p])%list, inr p).
Proof.
  unfold try_inference. intros -> HX Hp.
  rewrite (bind_returns _ _ _ _ HX), Hp. reflexivity.
Qed.

(** What the encoder read, the predictor reads too. *)
Lemma prepared_fields (self : RecoveryPredictor) (data : gmap string pyval)
    out (X : Features) :
  prepare_features float_repr self data = (out, inr X) ->
  exists a d h s,
    float_field data "amount" = inr a /\
    int_field data "days_overdue" = inr d /\
    float_field data "payment_history_score" = inr h /\
    float_field data "shipment_volume_change_30d" = inr s.
Proof.
  intros H. destruct (prepare_features_cells _ _ _ _ _ H) as (out0 & df0 & Hsyn & _).
  destruct (synthesize_features_frame _ _ _ _ Hsyn)
    as (a & d & h & ch & v & r & dv & at_ & t & Ha & Hd & Hh & Hch & _).
  now exists a, d, h, ch.
Qed.


Lemma expected_days_of_finite (p : pyfloat) (d : Z) :
  expected_days_of p = inr d -> exists q, p = Fin q.
Proof.
  destruct p as [q | [|] |]; [eauto | discriminate ..].
Qed.

Lemma expected_days_of_not_finite (p : pyfloat) :
  (p = NaN -> expected_days_of p = inl ValueError) /\
  (forall neg, p = Inf neg -> expected_days_of p = inl OverflowError).
Proof.
  split; [intros -> | intros [|] ->]; reflexivity.
Qed.

(** A classifier that answers NaN or an infinity is taken at its word:
    the answer is not replaced by the fallback, and the call raises when
    the days are computed, [ValueError] for NaN and [OverflowError] for
    an infinity. *)
Theorem model_answer_not_finite (self : RecoveryPredictor) (data : gmap string pyval)
    predict_proba out (X : Features) (p : pyfloat) :
  account_of data <> hero_id ->
  model self = Some predict_proba ->
  prepare_features float_repr self data = (out, inr X) ->
  predict_proba X = inr p ->
  (forall q, p <> Fin q) ->
  predict_recovery float_repr now self data
    = ((LogAnalyzing (account_of data) :: out ++ [LogPrediction p])%list,
       inl (match p with NaN => ValueError | _ => OverflowError end)).
Proof.
  intros Hid Hmodel HX Hp Hnot.
  destruct (prepared_fields _ _ _ _ HX) as (a & d & h & s & Ha & Hd & Hh & Hs).
  pose proof (try_inference_returns _ _ _ _ _ _ Hmodel HX Hp) as Htry.
  rewrite (predict_recovery_unfolds self data a h s d Hid Ha Hd Hh Hs).
  rewrite bind_print, Htry. unfold try_except.
  rewrite (bind_returns _ _ _ _ eq_refl). unfold derive_metrics.
  destruct p as [q | neg |].
  - now elim (Hnot q).
  - destruct (expected_days_of_not_finite (Inf neg)) as [_ H]. rewrite (H neg eq_refl).
    simpl. now rewrite app_nil_r.
  - simpl. now rewrite app_nil_r.
Qed.

Lemma risk_level_of_known (p : pyfloat) : risk_level_of p ∈ risk_levels.
Proof.
  unfold risk_level_of, risk_levels.
  destruct (fgt p (Fin 0.8)); [apply list_elem_of_In; simpl; tauto |].
  destruct (fgt p (Fin 0.6)); [apply list_elem_of_In; simpl; tauto |].
  destruct (fgt p (Fin 0.4)); apply list_elem_of_In; simpl; tauto.
Qed.

(** Every prediction returned, for the sentinel or not, has a finite
    probability that the percentage repeats, one of the four risk levels,
    exactly the three factors of the fixed list in its order, the account
    identifier as it was read and the clock reading. *)
Theorem prediction_shape (self : RecoveryPredictor) (data : gmap string pyval)
    (r : Prediction) :
  outcome (predict_recovery float_repr now self data) = inr r ->
  (exists q, recovery_probability r = Fin q) /\
  recovery_percentage r = recovery_probability r /\
  risk_level r ∈ risk_levels /\
  map feature (top_factors r) = factor_features /\
  account_id r = account_of data /\
  prediction_timestamp r = now.
Proof.
  unfold predict_recovery. rewrite bind_print, outcome_run.
  destruct (String.eqb_spec (account_of data) hero_id) as [Hid | Hid].
  - rewrite bind_print, outcome_run. unfold ret. rewrite outcome_run.
    intros [= <-]. rewrite Hid. simpl.
    repeat split; eauto. apply list_elem_of_In. simpl. tauto.
  - intros H.
    apply outcome_bind_inr in H. destruct H as (a & _ & H).
    apply outcome_bind_inr in H. destruct H as (d & _ & H).
    apply outcome_bind_inr in H. destruct H as (h & _ & H).
    apply outcome_bind_inr in H. destruct H as (s & _ & H).
    apply outcome_bind_inr in H. destruct H as (prob & _ & H).
    unfold derive_metrics in H.
    apply outcome_bind_inr in H. destruct H as (days & Hdays & H).
    apply outcome_bind_inr in H. destruct H as (v & _ & H).
    apply outcome_bind_inr in H. destruct H as (fs & Hfs & H).
    injection H as <-. simpl.
    split; [exact (expected_days_of_finite prob days Hdays) |].
    split; [reflexivity |]. split; [apply risk_level_of_known |].
    split; [| split; reflexivity].
    unfold lift in Hfs. rewrite outcome_run in Hfs. unfold factors_of in Hfs.
    simpl in Hfs. now injection Hfs as <-.
Qed.

(** The agency follows the risk level for every float, NaN and the
    infinities included: premium exactly for Low, standard exactly for
    Medium, specialist exactly for High and Very High. *)
Theorem dca_follows_risk (p : pyfloat) :
  (risk_level_of p = "Low" <-> dca_of p = premium_dca) /\
  (risk_level_of p = "Medium" <-> dca_of p = standard_dca) /\
  (risk_level_of p = "High" \/ risk_level_of p = "Very High"
   <-> dca_of p = specialist_dca).
Proof.
  unfold risk_level_of, dca_of.
  destruct (fgt p (Fin 0.8)); [| destruct (fgt p (Fin 0.6)); [| destruct (fgt p (Fin 0.4))]];
    repeat split; intros; try discriminate; auto;
    try match goal with H : _ \/ _ |- _ => destruct H; discriminate end.
Qed.

(** A raw field that cannot be read ends the call before the [try]
    block: only the first line is printed, the exception is [ValueError]
    or [OverflowError], and the predictor has no part in it. *)
Theorem raw_field_failure (self : RecoveryPredictor) (data : gmap string pyval) :
  account_of data <> hero_id ->
  (exists e, float_field data "amount" = inl e) \/
  (exists e, int_field data "days_overdue" = inl e) \/
  (exists e, float_field data "payment_history_score" = inl e) \/
  (exists e, float_field data "shipment_volume_change_30d" = inl e) ->
  exists e,
    predict_recovery float_repr now self data
      = ([LogAnalyzing (account_of data)], inl e) /\
    (e = ValueError \/ e = OverflowError).
Proof.
  intros Hid Hfail. unfold predict_recovery. rewrite bind_print.
  apply String.eqb_neq in Hid. rewrite Hid.
  destruct (float_field data "amount") as [e | a] eqn:Ha.
  { exists e. split; [reflexivity |]. left. now apply float_field_error in Ha. }
  rewrite bind_lift_inr.
  destruct (int_field data "days_overdue") as [e | d] eqn:Hd.
  { exists e. split; [reflexivity |]. now apply int_field_error in Hd. }
  rewrite bind_lift_inr.
  destruct (float_field data "payment_history_score") as [e | h] eqn:Hh.
  { exists e. split; [reflexivity |]. left. now apply float_field_error in Hh. }
  rewrite bind_lift_inr.
  destruct (float_field data "shipment_volume_change_30d") as [e | s] eqn:Hs.
  { exists e. split; [reflexivity |]. left. now apply float_field_error in Hs. }
  exfalso. destruct Hfail as [[e H] | [[e H] | [[e H] | [e H]]]]; discriminate.
Qed.

End PredictorShape.


Lemma model_answer_not_finite_witness :
  outcome (predict_recovery sample_repr sample_now predictor_nan record_T1)
  = inl ValueError.
Proof.
  run_encoder predictor_nan record_T1 out X Hrun.
  rewrite (model_answer_not_finite sample_repr sample_now predictor_nan record_T1
             (fun _ => inr NaN) out X NaN);
    [reflexivity | vm_compute; discriminate | reflexivity | exact Hrun
    | reflexivity | discriminate].
Defined.

Lemma prediction_shape_witness :
  exists r,
    outcome (predict_recovery sample_repr sample_now predictor_without_model record_T1)
    = inr r /\
    map feature (top_factors r) = factor_features /\
    account_id r = "T1".
Proof.
  destruct (outcome (predict_recovery sample_repr sample_now predictor_without_model
                       record_T1)) as [e | r] eqn:Hrun;
    [vm_compute in Hrun; discriminate |].
  exists r. split; [reflexivity |].
  destruct (prediction_shape sample_repr sample_now predictor_without_model record_T1
              r Hrun) as (_ & _ & _ & Hfactors & Hid & _).
  split; [exact Hfactors | exact Hid].
Defined.

Lemma raw_field_failure_witness :
  exists e,
    predict_recovery sample_repr sample_now predictor_canonical row_2
    = ([LogAnalyzing "R2"], inl e) /\
    (e = ValueError \/ e = OverflowError).
Proof.
  apply (raw_field_failure sample_repr sample_now predictor_canonical row_2);
    [vm_compute; discriminate |].
  left. exists ValueError. vm_compute. reflexivity.
Defined.

(** ** The derived metrics, more closely *)

Section DerivedRanges.

Lemma Qfloor_below (q : Q) (n : Z) : (q < inject_Z n)%Q -> Qfloor q < n.
Proof.
  intros H. apply Z.lt_nge. intros Hn.
  assert (Hle : (inject_Z n <= inject_Z (Qfloor q))%Q) by now rewrite <- Zle_Qle.
  apply (Qlt_irrefl q). eapply Qlt_le_trans; [exact H |].
  eapply Qle_trans; [exact Hle | apply Qfloor_le].
Qed.

Lemma Qfloor_range (q : Q) (lo hi : Z) :
  (inject_Z lo <= q)%Q -> (q < inject_Z (hi + 1))%Q -> lo <= Qfloor q <= hi.
Proof.
  intros Hlo Hhi. split.
  - rewrite <- (Qfloor_Z lo). now apply Qfloor_resp_le.
  - apply Qfloor_below in Hhi. lia.
Qed.

Lemma table_days_range (p : Q) :
  (0 <= p <= 1)%Q ->
  fst (days_range (bucket_of p)) <= Qfloor (BucketTable.days (bucket_of p) p)
    <= snd (days_range (bucket_of p)).
Proof.
  intros Hp. pose proof (bucket_of_in_range p) as Hr.
  destruct (bucket_of p); cbn [BucketTable.in_range BucketTable.days days_range fst snd] in *.
  - apply Qfloor_range; [change (inject_Z 30) with 30%Q
                        | change (inject_Z (39 + 1)) with 40%Q]; lra.
  - apply Qfloor_range; [change (inject_Z 57) with 57%Q
                        | change (inject_Z (68 + 1)) with 69%Q]; lra.
  - apply Qfloor_range; [change (inject_Z 92) with 92%Q
                        | change (inject_Z (107 + 1)) with 108%Q]; lra.
  - apply Qfloor_bounds; [change (inject_Z 144) with 144%Q
                         | change (inject_Z 180) with 180%Q]; lra.
Qed.


(** The ranges do not meet, so on [[0,1]] the expected days tell the
    risk level: two probabilities with the same days have the same
    level. *)
Theorem expected_days_determine_risk (p1 p2 : Q) :
  (0 <= p1 <= 1)%Q -> (0 <= p2 <= 1)%Q ->
  expected_days_of (Fin p1) = expected_days_of (Fin p2) ->
  risk_level_of (Fin p1) = risk_level_of (Fin p2).
Proof.
  intros H1 H2 Hsame.
  rewrite (expected_days_of_table p1 H1), (expected_days_of_table p2 H2) in Hsame.
  injection Hsame as Hsame.
  pose proof (table_days_range p1 H1) as R1.
  pose proof (table_days_range p2 H2) as R2.
  rewrite !risk_level_of_fin. rewrite Hsame in R1.
  destruct (bucket_of p1), (bucket_of p2); cbn [days_range fst snd] in *;
    try reflexivity; lia.
Qed.


End DerivedRanges.


Lemma expected_days_determine_risk_witness :
  risk_level_of (Fin 0.9) = risk_level_of (Fin 0.895).
Proof.
  apply (expected_days_determine_risk 0.9 0.895);
    [split; discriminate | split; discriminate | vm_compute; reflexivity].
Defined.

(** ** The velocity score *)

Section Velocity.

Variable float_repr : pyfloat -> string.
Variable now : string.

Lemma Z_lt_between (a b : Z) (c : Q) :
  (inject_Z a <= c)%Q -> (c < inject_Z b)%Q -> a < b.
Proof.
  intros H1 H2. rewrite Zlt_Qlt. now apply Qle_lt_trans with c.
Qed.

(** Rounding half to even stays between 0 and [n] on [[0, n + 1/2)]. *)
Lemma Qround_half_even_bounds (x : Q) (n : Z) :
  (0 <= x)%Q -> (x < inject_Z n + (1 # 2))%Q -> 0 <= Qround_half_even x <= n.
Proof.
  intros H0 Hn. unfold Qround_half_even.
  set (f := Qfloor x).
  assert (Hf0 : 0 <= f).
  { rewrite <- (Qfloor_Z 0). now apply Qfloor_resp_le. }
  pose proof (Qfloor_le x) as Hfx. fold f in Hfx.
  assert (Hsucc : (inject_Z (n + 1) == inject_Z n + 1)%Q)
    by (rewrite inject_Z_plus; reflexivity).
  assert (Hfn : f < n + 1).
  { apply (Z_lt_between f (n + 1) x); [exact Hfx |]. rewrite Hsucc.
    set (N := inject_Z n) in *. clearbody N. lra. }
  destruct (Qltb (x - inject_Z f) (1 # 2)) eqn:E1; [lia |].
  assert (Hlt : f < n).
  { apply Qltb_false in E1.
    apply (Z_lt_between f n (inject_Z f)); [apply Qle_refl |].
    set (N := inject_Z n) in *. set (F := inject_Z f) in *. clearbody N F. lra. }
  destruct (Qltb (1 # 2) (x - inject_Z f)); [lia |].
  destruct (Z.even f); lia.
Qed.

(** Away from the sentinel, the metrics of a returned prediction as the
    code computes them from its probability. *)
Lemma predict_recovery_velocity (self : RecoveryPredictor) (data : gmap string pyval)
    (r : Prediction) :
  py_str float_repr (get data "account_id" (PyStr "Unknown")) <> hero_id ->
  outcome (predict_recovery float_repr now self data) = inr r ->
  exists v,
    expected_days_of (recovery_probability r) = inr (expected_days r) /\
    fdiv (fmul (recovery_probability r) (Fin 100))
         (float_of_int (py_max (expected_days r) 1)) = inr v /\
    recovery_velocity_score r = round2 v.
Proof.
  intros Hid. unfold predict_recovery. rewrite bind_print.
  apply String.eqb_neq in Hid. rewrite Hid, outcome_run.
  intros H.
  apply outcome_bind_inr in H. destruct H as (a & _ & H).
  apply outcome_bind_inr in H. destruct H as (d & _ & H).
  apply outcome_bind_inr in H. destruct H as (h & _ & H).
  apply outcome_bind_inr in H. destruct H as (s & _ & H).
  apply outcome_bind_inr in H. destruct H as (prob & _ & H).
  unfold derive_metrics in H.
  apply outcome_bind_inr in H. destruct H as (days & Hdays & H).
  apply outcome_bind_inr in H. destruct H as (v & Hv & H).
  apply outcome_bind_inr in H. destruct H as (fs & _ & H).
  injection H as <-. simpl. exists v. repeat split; assumption.
Qed.

(** For a probability in [[0,1]] the velocity score of a returned
    prediction lies between 0 and 3.33, and its days between 30 and
    180. *)
Theorem velocity_score_bounds (self : RecoveryPredictor) (data : gmap string pyval)
    (r : Prediction) (p : Q) :
  py_str float_repr (get data "account_id" (PyStr "Unknown")) <> hero_id ->
  outcome (predict_recovery float_repr now self data) = inr r ->
  recovery_probability r = Fin p ->
  (0 <= p <= 1)%Q ->
  30 <= expected_days r <= 180 /\
  exists v, recovery_velocity_score r = Fin v /\ (0 <= v <= 3.33)%Q.
Proof.
  intros Hid Hrun Hprob Hp.
  destruct (predict_recovery_velocity self data r Hid Hrun) as (v0 & Hdays & Hv0 & Hscore).
  rewrite Hprob in Hdays, Hv0.
  rewrite (expected_days_of_table p Hp) in Hdays. injection Hdays as Hdays.
  assert (Hrange : 30 <= expected_days r <= 180).
  { rewrite <- Hdays. pose proof (table_days_range p Hp) as R.
    destruct (bucket_of p); cbn [days_range fst snd] in R; lia. }
  split; [exact Hrange |].
  set (days := expected_days r) in *.
  assert (Hmax : py_max days 1 = days).
  { unfold py_max. destruct (Z.ltb_spec days 1); [lia | reflexivity]. }
  rewrite Hmax in Hv0. unfold fdiv, fmul, float_of_int in Hv0.
  assert (Hnz : ~ (inject_Z days == 0)%Q).
  { unfold Qeq. simpl. lia. }
  assert (E : Qeq_bool (inject_Z days) 0 = false).
  { apply Bool.not_true_iff_false. now rewrite Qeq_bool_iff. }
  rewrite E in Hv0. injection Hv0 as <-. rewrite Hscore. unfold round2.
  eexists. split; [reflexivity |].
  assert (HD : (30 <= inject_Z days)%Q)
    by (change (inject_Z 30 <= inject_Z days)%Q; rewrite <- Zle_Qle; lia).
  set (D := inject_Z days) in *. clearbody D.
  set (y := (p * 100 / D)%Q).
  assert (Hy : (y * D == p * 100)%Q) by (unfold y; field; exact Hnz).
  assert (Hy0 : (0 <= y)%Q) by nra.
  assert (Hy1 : (y * 30 <= 100)%Q) by nra.
  destruct (Qround_half_even_bounds (y * 100) 333) as [Hlo Hhi].
  { lra. }
  { change (inject_Z 333) with 333%Q. lra. }
  set (k := Qround_half_even (y * 100)) in *.
  assert (K0 : (0 <= inject_Z k)%Q)
    by (change (inject_Z 0 <= inject_Z k)%Q; now rewrite <- Zle_Qle).
  assert (K1 : (inject_Z k <= 333)%Q)
    by (change (inject_Z k <= inject_Z 333)%Q; now rewrite <- Zle_Qle).
  set (K := inject_Z k) in *. clearbody K.
  assert (H100 : (K / 100 == K * (1 # 100))%Q) by reflexivity.
  rewrite H100. split; lra.
Qed.

End Velocity.

Lemma velocity_score_bounds_witness :
  exists r v,
    outcome (predict_recovery sample_repr sample_now predictor_canonical record_T1)
    = inr r /\
    recovery_velocity_score r = Fin v /\ (0 <= v <= 3.33)%Q.
Proof.
  destruct (outcome (predict_recovery sample_repr sample_now predictor_canonical
                       record_T1)) as [e | r] eqn:Hrun;
    [vm_compute in Hrun; discriminate |].
  assert (Hprob : recovery_probability r = Fin 0.5).
  { assert (H : match outcome (predict_recovery sample_repr sample_now
                                 predictor_canonical record_T1) with
                | inr r' => recovery_probability r' = Fin 0.5
                | inl _ => False
                end) by (vm_compute; reflexivity).
    now rewrite Hrun in H. }
  destruct (velocity_score_bounds sample_repr sample_now predictor_canonical record_T1
              r 0.5) as (_ & v & Hv & Hbounds);
    [vm_compute; discriminate | exact Hrun | exact Hprob | split; discriminate |].
  exists r, v. split; [reflexivity |]. split; assumption.
Defined.

(** ** The batch endpoint, more closely *)

Section BatchShape.

Import Main.

Variable float_repr : pyfloat -> string.
Variable now : string.

Lemma returned_probability_finite (self : RecoveryPredictor)
    (data : gmap string pyval) (r : Prediction) :
  outcome (predict_recovery float_repr now self data) = inr r ->
  exists q, recovery_probability r = Fin q.
Proof.
  unfold predict_recovery. rewrite bind_print, outcome_run.
  destruct (String.eqb _ hero_id).
  - rewrite bind_print, outcome_run. unfold ret. rewrite outcome_run.
    intros [= <-]. simpl. eauto.
  - intros H.
    apply outcome_bind_inr in H. destruct H as (a & _ & H).
    apply outcome_bind_inr in H. destruct H as (d & _ & H).
    apply outcome_bind_inr in H. destruct H as (h & _ & H).
    apply outcome_bind_inr in H. destruct H as (s & _ & H).
    apply outcome_bind_inr in H. destruct H as (prob & _ & H).
    unfold derive_metrics in H.
    apply outcome_bind_inr in H. destruct H as (days & Hdays & H).
    apply outcome_bind_inr in H. destruct H as (v & _ & H).
    apply outcome_bind_inr in H. destruct H as (fs & _ & H).
    injection H as <-. simpl.
    unfold lift in Hdays. rewrite outcome_run in Hdays.
    destruct prob as [q | [|] |]; [eauto | discriminate ..].
Qed.

Lemma process_row_finite (predictor : RecoveryPredictor) (row : gmap string pyval)
    (acc : AnalyzedAccount) :
  outcome (process_row float_repr now predictor row) = inr acc ->
  finite_probability acc.
Proof.
  unfold process_row. intros H.
  apply outcome_bind_inr in H. destruct H as (k & _ & H).
  apply outcome_bind_inr in H. destruct H as (r & Hr & H).
  apply outcome_bind_inr in H. destruct H as (a & _ & H).
  apply outcome_bind_inr in H. destruct H as (d & _ & H).
  injection H as <-. unfold finite_probability, probability_of. simpl.
  exact (returned_probability_finite predictor row r Hr).
Qed.

Lemma process_rows_finite (predictor : RecoveryPredictor)
    (rows : list (gmap string pyval)) (done preds : list AnalyzedAccount) :
  Forall finite_probability done ->
  outcome (process_rows float_repr now predictor rows done) = inr preds ->
  Forall finite_probability preds.
Proof.
  revert done. induction rows as [| row rows IH]; intros done Hdone; simpl.
  - intros H. unfold ret, outcome in H. simpl in H. now injection H as <-.
  - intros H. apply outcome_bind_inr in H. destruct H as (acc & Hacc & H).
    apply (IH (done ++ [acc])%list); [| exact H].
    apply Forall_app. split; [exact Hdone |].
    constructor; [| constructor]. exact (process_row_finite predictor row acc Hacc).
Qed.

Lemma count_if_cons (cond : AnalyzedAccount -> bool) (p : AnalyzedAccount)
    (l : list AnalyzedAccount) :
  count_if cond (p :: l) = ((if cond p then 1 else 0) + count_if cond l)%nat.
Proof.
  unfold count_if. rewrite filter_cons.
  destruct (decide (cond p = true)) as [-> | Hno]; [reflexivity |].
  apply Bool.not_true_is_false in Hno. now rewrite Hno.
Qed.

(** Of the three tests of the summary exactly one holds on a finite
    probability. *)
Lemma bands_partition (q : Q) :
  ((if fgt (Fin q) (Fin 0.7) then 1 else 0)
   + (if flt (Fin 0.4) (Fin q) && fle (Fin q) (Fin 0.7) then 1 else 0)
   + (if fle (Fin q) (Fin 0.4) then 1 else 0) = 1)%nat.
Proof.
  unfold flt, fgt, fle.
  destruct (Qgtb q 0.7) eqn:E7; destruct (Qgtb q 0.4) eqn:E4;
    destruct (Qle_bool q 0.7) eqn:L7; destruct (Qle_bool q 0.4) eqn:L4;
    simpl; try reflexivity; exfalso;
    repeat match goal with
      | H : Qgtb _ _ = true |- _ => apply Qgtb_true in H
      | H : Qgtb _ _ = false |- _ => apply Qgtb_false in H
      | H : Qle_bool _ _ = true |- _ => apply Qle_bool_iff in H
      | H : Qle_bool _ _ = false |- _ =>
          apply Bool.not_true_iff_false in H; rewrite Qle_bool_iff in H
      end; lra.
Qed.

Lemma summary_counts (l : list AnalyzedAccount) :
  Forall finite_probability l ->
  (count_if (fun p => fgt (probability_of p) (Fin 0.7)) l
   + count_if (fun p => flt (Fin 0.4) (probability_of p)
                        && fle (probability_of p) (Fin 0.7)) l
   + count_if (fun p => fle (probability_of p) (Fin 0.4)) l
   = length l)%nat.
Proof.
  induction 1 as [| p l [q Hq] _ IH]; [reflexivity |].
  rewrite !count_if_cons, Hq. simpl length.
  pose proof (bands_partition q) as Hone. lia.
Qed.

(** In every answer with a body the three bands of the summary add up
    to the number of accounts, which is the number of predictions: no
    prediction is counted twice or left out. *)
Theorem summary_partitions (predictor : option RecoveryPredictor) (file : upload)
    (out : list line) (body : Analysis) :
  analyze_csv float_repr now predictor file = (out, OK body) ->
  (high_probability (summary body) + medium_probability (summary body)
   + low_probability (summary body) = total_accounts body)%nat /\
  total_accounts body = length (predictions body).
Proof.
  unfold analyze_csv. destruct predictor as [pr |]; [| discriminate].
  destruct file as [| | cols rows]; try discriminate.
  destruct (filter _ required_cols); [| discriminate].
  destruct (process_rows float_repr now pr rows []) as [o [e | preds]] eqn:Hrun;
    [discriminate |].
  intros [= _ <-]. simpl. split; [| reflexivity].
  apply summary_counts.
  apply (process_rows_finite pr rows [] preds); [constructor | now rewrite Hrun].
Qed.

(** The status 400 is given to an empty upload only.  A table that lacks
    a required column is answered with 500, the 400 raised for it being
    caught by the handler of the same [try] block, and no row of it is
    processed. *)
Theorem bad_request_only_when_empty (predictor : option RecoveryPredictor)
    (file : upload) :
  (forall d, snd (analyze_csv float_repr now predictor file) = HTTPException 400 d ->
     file = EmptyDataError /\ d = CsvEmpty) /\
  (forall pr cols rows c,
     predictor = Some pr -> file = Table cols rows ->
     c ∈ required_cols -> c ∉ cols ->
     exists missing,
       analyze_csv float_repr now predictor file
       = ([], HTTPException 500 (AnalysisFailed (MissingColumns missing))) /\
       c ∈ missing).
Proof.
  split.
  - intros d. unfold analyze_csv. destruct predictor as [pr |]; [| discriminate].
    destruct file as [| | cols rows]; try discriminate.
    + intros [= <-]. now split.
    + destruct (filter _ required_cols); [| discriminate].
      destruct (process_rows float_repr now pr rows []) as [o [e | preds]]; discriminate.
  - intros pr cols rows c -> -> Hreq Hmiss. unfold analyze_csv.
    assert (Hc : c ∈ filter (fun col => col ∉ cols) required_cols)
      by (apply list_elem_of_filter; now split).
    destruct (filter (fun col => col ∉ cols) required_cols) as [| m ms] eqn:E.
    + now apply elem_of_nil in Hc.
    + exists (m :: ms). split; [reflexivity | exact Hc].
Qed.

(** A row with the sentinel identifier is still read for the two echoed
    fields after the override returned: it yields a result exactly when
    its amount and its days can be coerced, and raises what the coercion
    raises otherwise. *)
Theorem sentinel_row_is_coerced (predictor : RecoveryPredictor)
    (row : gmap string pyval) (key : pyval) :
  row !! "account_id" = Some key ->
  py_str float_repr key = hero_id ->
  outcome (process_row float_repr now predictor row) =
  match float_field row "amount", int_field row "days_overdue" with
  | inl e, _ => inl e
  | inr _, inl e => inl e
  | inr a, inr d =>
      inr {| prediction :=
               hero_result now
                 (py_str float_repr (get row "company_name" (PyStr "Unknown Company")));
             amount := a;
             days_overdue := d |}
  end.
Proof.
  intros Hkey Hid. unfold process_row. rewrite Hkey, bind_lift_inr.
  assert (Hhero : predict_recovery float_repr now predictor row
            = ([LogAnalyzing hero_id; LogHero],
               inr (hero_result now
                      (py_str float_repr
                         (get row "company_name" (PyStr "Unknown Company")))))).
  { unfold predict_recovery, get. rewrite Hkey. simpl default. rewrite Hid. reflexivity. }
  rewrite (bind_returns _ _ _ _ Hhero), outcome_run.
  destruct (float_field row "amount") as [e | a]; [reflexivity |].
  rewrite bind_lift_inr.
  destruct (int_field row "days_overdue") as [e | d]; reflexivity.
Qed.

End BatchShape.

Lemma summary_partitions_witness :
  exists out body,
    Main.analyze_csv sample_repr sample_now (Some predictor_canonical)
      (Main.Table Main.required_cols [row_1; row_3]) = (out, Main.OK body) /\
    (Main.high_probability (Main.summary body)
     + Main.medium_probability (Main.summary body)
     + Main.low_probability (Main.summary body) = 2)%nat.
Proof.
  destruct (Main.analyze_csv sample_repr sample_now (Some predictor_canonical)
              (Main.Table Main.required_cols [row_1; row_3]))
    as [out [body | code d]] eqn:Hrun; [| vm_compute in Hrun; discriminate].
  exists out, body. split; [reflexivity |].
  destruct (summary_partitions sample_repr sample_now (Some predictor_canonical)
              (Main.Table Main.required_cols [row_1; row_3]) out body Hrun)
    as [Hsum Htotal].
  rewrite Hsum.
  assert (H : match snd (Main.analyze_csv sample_repr sample_now (Some predictor_canonical)
                           (Main.Table Main.required_cols [row_1; row_3])) with
              | Main.OK b => Main.total_accounts b = 2%nat
              | _ => False
              end) by (vm_compute; reflexivity).
  now rewrite Hrun in H.
Defined.

Lemma sentinel_row_is_coerced_witness :
  outcome (Main.process_row sample_repr sample_now predictor_canonical record_hero)
  = inl ValueError.
Proof.
  rewrite (sentinel_row_is_coerced sample_repr sample_now predictor_canonical
             record_hero (PyStr "ACC0001"));
    [vm_compute; reflexivity | vm_compute; reflexivity | reflexivity].
Defined.

(** ** The account store and the single-account endpoints *)

Section Store.

Import Endpoints.

Variable float_repr : pyfloat -> string.
Variable now : string.

(** What [data.dict()] holds under the keys the pipeline reads. *)
Lemma dict_lookups (data : AccountRequest) :
  dict data !! "account_id" = Some (PyStr (account_id data)) /\
  dict data !! "amount" = Some (PyFloat (amount data)) /\
  dict data !! "days_overdue" = Some (PyInt (days_overdue data)) /\
  dict data !! "payment_history_score" = Some (PyFloat (payment_history_score data)) /\
  dict data !! "shipment_volume_change_30d"
    = Some (PyFloat (shipment_volume_change_30d data)) /\
  dict data !! "shipment_volume_30d" = Some (optional PyInt (shipment_volume_30d data)) /\
  dict data !! "express_ratio" = Some (optional PyFloat (express_ratio data)) /\
  dict data !! "destination_diversity"
    = Some (optional PyInt (destination_diversity data)) /\
  dict data !! "contact_attempts" = None /\
  dict data !! "customer_tenure_months" = None.
Proof. repeat split; vm_compute; reflexivity. Qed.

(** Asking for the account just posted gives the answer the post gave,
    and the post changes the answer for no other identifier. *)
Theorem predict_then_get (predictor : RecoveryPredictor) (db : accounts)
    (data : AccountRequest) :
  get_account float_repr now (Some predictor)
    (fst (predict_single float_repr now (Some predictor) db data)) (account_id data)
  = snd (predict_single float_repr now (Some predictor) db data) /\
  (forall id : string, id <> account_id data ->
     get_account float_repr now (Some predictor)
       (fst (predict_single float_repr now (Some predictor) db data)) id
     = get_account float_repr now (Some predictor) db id).
Proof.
  destruct (dict_lookups data) as (Hid & _).
  unfold predict_single, get_account. rewrite Hid. unfold store.
  destruct (predict_and_echo float_repr now predictor (dict data)) as [out r] eqn:Hrun.
  simpl. split.
  - rewrite lookup_insert_eq. now rewrite Hrun.
  - intros id Hne. rewrite lookup_insert_ne by congruence. reflexivity.
Qed.




(** The threaded loop gives the results of the loop without the store. *)
Lemma process_rows_refines (predictor : RecoveryPredictor) (db : accounts)
    (rows : list (gmap string pyval)) (done : list Main.AnalyzedAccount) :
  snd (process_rows float_repr now predictor db rows done)
  = Main.process_rows float_repr now predictor rows done.
Proof.
  revert db done. induction rows as [| row rows IH]; intros db done; simpl;
    [reflexivity |].
  destruct (Main.process_row float_repr now predictor row) as [out [e | acc]];
    [reflexivity |].
  specialize (IH (store_row db row) (done ++ [acc])%list).
  destruct (process_rows float_repr now predictor (store_row db row) rows
              (done ++ [acc])%list) as [db' m].
  simpl in *. rewrite <- IH. unfold bind.
  destruct m as [out' r]. reflexivity.
Qed.

Lemma process_rows_store_all (predictor : RecoveryPredictor) (db : accounts)
    (rows : list (gmap string pyval)) (done : list Main.AnalyzedAccount) :
  Forall (fun r => exists acc,
            outcome (Main.process_row float_repr now predictor r) = inr acc) rows ->
  fst (process_rows float_repr now predictor db rows done)
  = fold_left store_row rows db.
Proof.
  intros H. revert db done.
  induction H as [| row rows [acc Hacc] _ IH]; intros db done; simpl; [reflexivity |].
  destruct (Main.process_row float_repr now predictor row) as [out [e | acc']];
    [discriminate |].
  specialize (IH (store_row db row) (done ++ [acc'])%list).
  destruct (process_rows float_repr now predictor (store_row db row) rows
              (done ++ [acc'])%list) as [db' m].
  exact IH.
Qed.

Lemma process_rows_store_until (predictor : RecoveryPredictor) (db : accounts)
    (rows1 rows2 : list (gmap string pyval)) (row : gmap string pyval) (e : exn)
    (done : list Main.AnalyzedAccount) :
  Forall (fun r => exists acc,
            outcome (Main.process_row float_repr now predictor r) = inr acc) rows1 ->
  outcome (Main.process_row float_repr now predictor row) = inl e ->
  fst (process_rows float_repr now predictor db (rows1 ++ row :: rows2) done)
  = fold_left store_row (rows1 ++ [row]) db.
Proof.
  intros H Hrow. revert db done.
  induction H as [| r rows1 [acc Hacc] _ IH]; intros db done; simpl.
  - destruct (Main.process_row float_repr now predictor row) as [out [e' | acc']];
      [reflexivity | discriminate].
  - destruct (Main.process_row float_repr now predictor r) as [out [e' | acc']];
      [discriminate |].
    specialize (IH (store_row db r) (done ++ [acc'])%list).
    destruct (process_rows float_repr now predictor (store_row db r)
                (rows1 ++ row :: rows2) (done ++ [acc'])%list) as [db' m].
    exact IH.
Qed.

(** A batch that is answered with an error has still stored its rows up
    to and with the one that raised, so that [get_account] finds the row
    that raised under its identifier; the rows after it are not stored.
    The results of the threaded loop are those of the loop without the
    store. *)
Theorem failed_batch_is_stored (predictor : RecoveryPredictor) (db : accounts)
    (cols : list string) (rows1 rows2 : list (gmap string pyval))
    (row : gmap string pyval) (id : string) (e : exn) :
  (forall c, c ∈ Main.required_cols -> c ∈ cols) ->
  Forall (fun r => exists acc,
            outcome (Main.process_row float_repr now predictor r) = inr acc) rows1 ->
  outcome (Main.process_row float_repr now predictor row) = inl e ->
  row !! "account_id" = Some (PyStr id) ->
  let db' := analyze_csv_store float_repr now (Some predictor) db
               (Main.Table cols (rows1 ++ row :: rows2)) in
  db' = fold_left store_row (rows1 ++ [row]) db /\
  named db' !! id = Some row /\
  (exists out d, get_account float_repr now (Some predictor) db' id = (out, d) /\
                 d <> HTTPException 404 (AccountNotFound id)) /\
  snd (process_rows float_repr now predictor db (rows1 ++ row :: rows2) [])
  = Main.process_rows float_repr now predictor (rows1 ++ row :: rows2) [].
Proof.
  intros Hcols Hok Hrow Hid db'.
  assert (Hdb : db' = fold_left store_row (rows1 ++ [row]) db).
  { unfold db', analyze_csv_store.
    rewrite (required_cols_present cols Hcols).
    exact (process_rows_store_until predictor db rows1 rows2 row e [] Hok Hrow). }
  assert (Hnamed : named db' !! id = Some row).
  { rewrite Hdb, fold_left_app. simpl. unfold store_row at 1. rewrite Hid.
    simpl. apply lookup_insert_eq. }
  split; [exact Hdb |]. split; [exact Hnamed |]. split.
  - unfold get_account. rewrite Hnamed.
    destruct (predict_and_echo float_repr now predictor row) as [out r].
    exists out, (reply_of r). split; [reflexivity |].
    destruct r; discriminate.
  - apply process_rows_refines.
Qed.

End Store.


Lemma failed_batch_is_stored_witness :
  Endpoints.named
    (Endpoints.analyze_csv_store sample_repr sample_now (Some predictor_canonical)
       empty_accounts (Main.Table Main.required_cols [row_1; row_2; row_3])) !! "R2"
  = Some row_2.
Proof.
  destruct (failed_batch_is_stored sample_repr sample_now predictor_canonical
              empty_accounts Main.required_cols [row_1] [row_3] row_2 "R2" ValueError)
    as (_ & Hnamed & _).
  - intros c Hc. exact Hc.
  - repeat constructor.
    destruct (outcome (Main.process_row sample_repr sample_now predictor_canonical row_1))
      as [e | acc] eqn:H; [vm_compute in H; discriminate | now exists acc].
  - vm_compute. reflexivity.
  - vm_compute. reflexivity.
  - exact Hnamed.
Defined.

(** ** The explanation engine, more closely *)

Section Explanations.

Import Explainer.

(** An indicator column is labelled by its group and its category,
    whatever the category is, underscores in it included. *)
Theorem indicator_labels (category : string) :
  _clean_feature_name ("industry_" ++ category) = ("Industry: " ++ category)%string /\
  _clean_feature_name ("region_" ++ category) = ("Region: " ++ category)%string.
Proof. split; reflexivity. Qed.

Lemma insert_desc_perm (x : Factor) (l : list Factor) : insert_desc x l ≡ₚ x :: l.
Proof.
  induction l as [| y l IH]; simpl; [reflexivity |].
  destruct (Qle_bool _ _); [reflexivity |].
  rewrite IH. apply Permutation_swap.
Qed.

Lemma sort_desc_perm (l : list Factor) : sort_desc l ≡ₚ l.
Proof.
  induction l as [| x l IH]; simpl; [reflexivity |].
  now rewrite insert_desc_perm, IH.
Qed.



Lemma explain_prediction_shap (self : ExplainabilityEngine) (X_df : DataFrame Q)
    ex out a (vals : list Q) :
  explainer self = Some ex ->
  shap_values ex X_df = inr out ->
  positive_class out = Some a ->
  first_row a = Some vals ->
  top_factors (explain_prediction self (Some X_df))
  = take 5 (sort_desc (collect shap_direction X_df vals)).
Proof.
  intros Hex Hout Ha Hvals. unfold explain_prediction.
  destruct X_df as [| col X_df]; [reflexivity |].
  now rewrite Hex, Hout, Ha, Hvals.
Qed.



Lemma collect_from_columns (dir : Q -> Q -> string) (X_df : DataFrame Q) (vals : list Q) :
  Forall (from_column X_df) (collect dir X_df vals) /\
  (length (collect dir X_df vals) <= length X_df)%nat.
Proof.
  revert vals. induction X_df as [| [name c] rest IH]; intros [| val vals]; simpl;
    try (split; [constructor | lia]).
  destruct (IH vals) as [Hall Hlen].
  assert (Hrest : Forall (from_column ((name, c) :: rest)) (collect dir rest vals)).
  { eapply Forall_impl; [exact Hall |]. intros f (n & x & Hin & Hf & Hv).
    exists n, x. split; [now apply list_elem_of_further | now split]. }
  destruct (Qabs_ltb val epsilon).
  - split; [exact Hrest | lia].
  - split; [| simpl; lia]. constructor; [| exact Hrest].
    exists name, c. split; [apply list_elem_of_here | split; reflexivity].
Qed.

Lemma ranked_from_columns (dir : Q -> Q -> string) (X_df : DataFrame Q) (vals : list Q) :
  Forall (from_column X_df) (take 5 (sort_desc (collect dir X_df vals))) /\
  (length (take 5 (sort_desc (collect dir X_df vals))) <= length X_df)%nat.
Proof.
  destruct (collect_from_columns dir X_df vals) as [Hall Hlen]. split.
  - now apply Forall_take, sort_desc_Forall.
  - rewrite length_take. rewrite (Permutation_length (sort_desc_perm _)). lia.
Qed.

(** Every factor returned, on every path, stands for a column of the
    frame: its name is the label of that column and the value reported
    is the cell of that column.  There are never more factors than
    columns. *)
Theorem factors_from_columns (self : ExplainabilityEngine) (X_df : DataFrame Q) :
  Forall (from_column X_df) (top_factors (explain_prediction self (Some X_df))) /\
  (length (top_factors (explain_prediction self (Some X_df))) <= length X_df)%nat.
Proof.
  assert (Hfall : Forall (from_column X_df) (top_factors (_fallback_explanation self X_df))
                  /\ (length (top_factors (_fallback_explanation self X_df))
                      <= length X_df)%nat).
  { unfold _fallback_explanation.
    destruct (importances_of (model self) X_df) as [e | imps].
    - simpl. split; [constructor | lia].
    - apply ranked_from_columns. }
  unfold explain_prediction. destruct X_df as [| col X_df].
  - simpl. split; [constructor | lia].
  - destruct (explainer self) as [ex |]; [| exact Hfall].
    destruct (shap_values ex (col :: X_df)) as [e | out]; [exact Hfall |].
    destruct (positive_class out) as [a |]; [| exact Hfall].
    destruct (first_row a) as [vals |]; [| exact Hfall].
    exact (ranked_from_columns shap_direction (col :: X_df) vals).
Qed.

Lemma shap_entries_signed (X_df : DataFrame Q) (vals : list Q) :
  Forall (fun f => direction f = "positive" /\ (0 < impact f)%Q
                   \/ direction f = "negative" /\ (impact f < 0)%Q)
         (collect shap_direction X_df vals).
Proof.
  revert vals. induction X_df as [| [name c] rest IH]; intros [| val vals]; simpl;
    try constructor.
  destruct (Qabs_ltb val epsilon) eqn:E; [apply IH |].
  constructor; [| apply IH]. simpl. unfold shap_direction.
  apply Qltb_false in E. unfold epsilon in E.
  destruct (Qgtb val 0) eqn:G.
  - left. split; [reflexivity | now apply Qgtb_true].
  - right. split; [reflexivity |]. apply Qgtb_false in G.
    rewrite Qabs_neg in E by exact G. lra.
Qed.

Lemma fallback_entries_unsigned (X_df : DataFrame Q) (vals : list Q) :
  Forall (fun f => direction f = "positive" \/ direction f = "neutral")
         (collect fallback_direction X_df vals).
Proof.
  revert vals. induction X_df as [| [name c] rest IH]; intros [| val vals]; simpl;
    try constructor.
  destruct (Qabs_ltb val epsilon); [apply IH |].
  constructor; [| apply IH]. simpl. unfold fallback_direction.
  destruct (Qgtb (cell_value c) 0); auto.
Qed.

(** With attributions, the direction of a factor is the sign of its
    impact, positive or negative and never neutral; in the fallback it is
    positive or neutral and never negative. *)
Theorem directions_by_path (self : ExplainabilityEngine) (X_df : DataFrame Q) :
  (forall ex out a vals,
     explainer self = Some ex -> shap_values ex X_df = inr out ->
     positive_class out = Some a -> first_row a = Some vals ->
     Forall (fun f => direction f = "positive" /\ (0 < impact f)%Q
                      \/ direction f = "negative" /\ (impact f < 0)%Q)
            (top_factors (explain_prediction self (Some X_df)))) /\
  Forall (fun f => direction f = "positive" \/ direction f = "neutral")
         (top_factors (_fallback_explanation self X_df)).
Proof.
  split.
  - intros ex out a vals Hex Hout Ha Hvals.
    rewrite (explain_prediction_shap self X_df ex out a vals Hex Hout Ha Hvals).
    apply Forall_take, sort_desc_Forall, shap_entries_signed.
  - unfold _fallback_explanation.
    destruct (importances_of (model self) X_df) as [e | imps]; simpl; [constructor |].
    apply Forall_take, sort_desc_Forall, fallback_entries_unsigned.
Qed.

End Explanations.

(** ** The two loaders of the model file *)

Section Loading.

Import Loader.

Variable float_repr : pyfloat -> string.
Variable path_exists : string -> bool.
Variable load : string -> result artifact.

Lemma first_existing_exists (paths : list string) (path : string) :
  first_existing path_exists paths = Some path ->
  path ∈ paths /\ path_exists path = true.
Proof.
  induction paths as [| p paths IH]; simpl; [discriminate |].
  destruct (path_exists p) eqn:E.
  - intros [= <-]. split; [apply list_elem_of_here | exact E].
  - intros H. destruct (IH H). split; [now apply list_elem_of_further | assumption].
Qed.

Lemma __init___synced (path : string) (a : artifact) (m : Estimator)
    (names own : list string) :
  first_existing path_exists possible_paths = Some path ->
  load path = inr a ->
  extract a = inr (Some m, names) ->
  feature_names_in_ m = Some own ->
  __init__ path_exists load
  = {| Predictor.model := Some (predict_proba m); Predictor.feature_names := own |}.
Proof. intros Hp Hl He Hown. unfold __init__. now rewrite Hp, Hl, He, Hown. Qed.

(** The columns the classifier was fitted on decide the frame: when the
    loaded classifier carries them, the frame the predictor prepares has
    exactly these columns in this order, whatever list of names the
    artifact holds beside it. *)
Theorem fitted_columns_order_frame (path : string) (a : artifact) (m : Estimator)
    (names own : list string) (data : gmap string pyval) out0 (df0 : Predictor.Features) :
  first_existing path_exists possible_paths = Some path ->
  load path = inr a ->
  extract a = inr (Some m, names) ->
  feature_names_in_ m = Some own ->
  own <> [] ->
  Predictor.synthesize_features float_repr data = (out0, inr df0) ->
  exists out df,
    Predictor.prepare_features float_repr (__init__ path_exists load) data
      = (out, inr df) /\
    columns df = own /\
    Forall (fun nc => snd nc = default (CInt 0) (column df0 (fst nc))) df.
Proof.
  intros Hp Hl He Hown Hne Hsyn.
  rewrite (__init___synced path a m names own Hp Hl He Hown).
  set (self := {| Predictor.model := Some (predict_proba m);
                  Predictor.feature_names := own |}).
  destruct (align_features_aligned self df0 Hne) as (df & Halign & Hcols & Hcells).
  exists (out0 ++ [LogFeaturesPrepared (length df)])%list, df.
  split; [| split; assumption].
  unfold Predictor.prepare_features.
  rewrite (bind_returns _ _ _ _ Hsyn), Halign. reflexivity.
Qed.

(** The loader of the explanation engine keeps a model and its names
    together or nothing at all: without a model the names are empty, and a
    model that is kept was read off a file that exists, the path given or
    one of the alternatives. *)
Theorem load_model_all_or_nothing (module_dir model_path : string) :
  let kept := _load_model path_exists load module_dir model_path in
  (fst kept = None -> snd kept = []) /\
  (forall model, fst kept = Some model ->
     exists file a,
       (file = model_path \/ file ∈ alt_paths module_dir) /\
       path_exists file = true /\
       load file = inr a /\
       resolve a = Some (Some model, snd kept)).
Proof.
  unfold _load_model.
  set (model_file := if path_exists model_path then model_path
                     else default model_path
                            (first_existing path_exists (alt_paths module_dir))).
  assert (Hfile : model_file = model_path \/ model_file ∈ alt_paths module_dir).
  { unfold model_file. destruct (path_exists model_path); [now left |].
    destruct (first_existing path_exists (alt_paths module_dir)) as [p |] eqn:E.
    - right. now apply first_existing_exists in E.
    - now left. }
  destruct (path_exists model_file) eqn:Hex; simpl; [| split; [easy | discriminate]].
  destruct (load model_file) as [e | a] eqn:Hl; simpl; [split; [easy | discriminate] |].
  destruct (resolve a) as [[[model |] names] |] eqn:Hr; simpl;
    try (split; [easy | discriminate]).
  split; [discriminate |]. intros model' [= <-].
  exists model_file, a. auto.
Qed.

(** Given the same pickle of the second structure, with its model under
    ['model'], the two loaders disagree: the explanation engine keeps the
    model and the names, and the predictor is left without a model. *)
Theorem loaders_disagree_on_model_key (module_dir path : string) (pkg : package)
    (m : Estimator) :
  first_existing path_exists possible_paths = Some path ->
  load path = inr (Package pkg) ->
  key_models pkg = None ->
  key_model pkg = Some (Some m) ->
  _load_model path_exists load module_dir path
    = (Some (AnEstimator m),
       default (default [] (key_feature_names pkg)) (key_features pkg)) /\
  Predictor.model (__init__ path_exists load) = None /\
  Predictor.feature_names (__init__ path_exists load)
    = default [] (key_feature_names pkg).
Proof.
  intros Hp Hl Hms Hm. split; [| split].
  - destruct (first_existing_exists _ _ Hp) as [_ Hex].
    unfold _load_model. rewrite Hex. simpl. rewrite Hex, Hl. simpl.
    now rewrite Hms, Hm.
  - unfold __init__. rewrite Hp, Hl. simpl. now rewrite Hms.
  - unfold __init__. rewrite Hp, Hl. simpl. now rewrite Hms.
Qed.

End Loading.

Lemma fitted_columns_order_frame_witness :
  exists out df,
    Predictor.prepare_features sample_repr
      (Loader.__init__ one_model_file (fun _ => inr (Loader.Package package_models)))
      record_T1 = (out, inr df) /\
    columns df = ["amount_log"; "days_overdue"; "industry_Tech"].
Proof.
  assert (Hsyn : exists out0 df0,
             Predictor.synthesize_features sample_repr record_T1 = (out0, inr df0)).
  { apply synthesize_features_total;
      intros k Hk; apply list_elem_of_In in Hk; simpl in Hk;
      repeat (destruct Hk as [<- | Hk]; [exact I |]); contradiction. }
  destruct Hsyn as (out0 & df0 & Hsyn).
  destruct (fitted_columns_order_frame sample_repr one_model_file
                (fun _ => inr (Loader.Package package_models))
                "models/recovery_model.pkl" (Loader.Package package_models)
                sample_estimator ["days_overdue"; "amount_log"]
                ["amount_log"; "days_overdue"; "industry_Tech"]
                record_T1 out0 df0)
      as (out & df & H & Hcols & _);
      [reflexivity | reflexivity | reflexivity | reflexivity | discriminate | exact Hsyn |].
  exists out, df. split; [exact H | exact Hcols].
Defined.

Lemma loaders_disagree_on_model_key_witness :
  fst (Loader._load_model one_model_file (fun _ => inr (Loader.Package package_model))
         "backend" "models/recovery_model.pkl") = Some (Loader.AnEstimator sample_estimator) /\
  Predictor.model
    (Loader.__init__ one_model_file (fun _ => inr (Loader.Package package_model))) = None.
Proof.
  destruct (loaders_disagree_on_model_key one_model_file
              (fun _ => inr (Loader.Package package_model))
              "backend" "models/recovery_model.pkl" package_model sample_estimator)
    as (Hload & Hnone & _); [reflexivity | reflexivity | reflexivity | reflexivity |].
  split; [now rewrite Hload | exact Hnone].
Defined.
